(** * Healthcare back end: appointment scheduling, access checks, audit trail

    A shallow embedding of the parts of the Express/Sequelize back end that
    carry behaviour of their own:

    - [models/Appointment.js]   the appointment row and [canBeCancelled];
    - [routes/appointmentRoutes.js]
                                 reading, booking, updating appointments and
                                 the availability listing of a doctor;
    - [middleware/auditLogger.js] and [models/AuditLog.js]
                                 derivation, sanitisation and best-effort
                                 storage of audit entries.

    Instants are JavaScript time values: integer milliseconds since the
    epoch, here [Z].  Rows live in tables that are lists in insertion order.
    A JavaScript object used as a dictionary ([req.body]) is a [gmap] from
    property names to JSON values. *)

From Stdlib Require Import ZArith QArith String Ascii List Bool Lia Sorted.
From stdpp Require Import base option list gmap strings.

Set Default Proof Using "Type".
Set Warnings "-register-all".
Local Open Scope string_scope.
Local Open Scope Z_scope.

(** ** JavaScript values *)

Module JS.

(** JSON data as [JSON.parse] and the body parser deliver it.  Numbers are
    the integral ones; an object keeps its properties as an association
    list in insertion order. *)
Inductive JValue : Type :=
| JNull
| JBool (b : bool)
| JNum (n : Z)
| JStr (s : string)
| JArr (items : list JValue)
| JObj (props : list (string * JValue)).

(** [ToBoolean]: what [if (v)] and [v || w] look at. *)
Definition truthy (v : JValue) : bool :=
  match v with
  | JNull => false
  | JBool b => b
  | JNum n => negb (n =? 0)
  | JStr s => negb (String.eqb s "")
  | JArr _ => true
  | JObj _ => true
  end.

(** A property that is absent reads [undefined], which is falsy. *)
Definition truthyProp (o : option JValue) : bool :=
  match o with
  | Some v => truthy v
  | None => false
  end.

(** [s.includes(sub)] *)
Fixpoint includes (s sub : string) : bool :=
  if String.prefix sub s then true
  else match s with
       | EmptyString => false
       | String _ rest => includes rest sub
       end.

(** [xs.includes(x)] on an array of strings *)
Definition arrayIncludes (xs : list string) (x : string) : bool :=
  existsb (String.eqb x) xs.

End JS.
Export JS.

(** ** Rows of the entity store *)

Module Model.

Inductive Role := admin | doctor | patient.

Inductive Status :=
  scheduled | confirmed | in_progress | completed | cancelled | no_show.

Inductive PaymentStatus := pay_pending | pay_paid | pay_partial | pay_cancelled.

Definition Role_eqb (a b : Role) : bool :=
  match a, b with
  | admin, admin | doctor, doctor | patient, patient => true
  | _, _ => false
  end.

Definition Status_eqb (a b : Status) : bool :=
  match a, b with
  | scheduled, scheduled | confirmed, confirmed | in_progress, in_progress
  | completed, completed | cancelled, cancelled | no_show, no_show => true
  | _, _ => false
  end.

(** ['scheduled', 'confirmed'].includes(status) and
    status: { [Op.in]: ['scheduled', 'confirmed'] } *)
Definition statusIn (xs : list Status) (s : Status) : bool :=
  existsb (Status_eqb s) xs.

(** The authenticated actor, [req.user]. *)
Record User := mkUser {
  user_id : string;
  user_role : Role
}.

Record Patient := mkPatient {
  patient_id : string;
  patient_userId : string
}.

(** [availableHours] is a JSON column holding clock strings. *)
Record Hours := mkHours {
  hours_start : string;
  hours_end : string
}.

Record Doctor := mkDoctor {
  doctor_id : string;
  doctor_userId : string;
  availableHours : option Hours;
  consultationDuration : option Z
}.

(** The columns of [models/Appointment.js], in the order of the model. *)
Record Appointment := mkAppointment {
  id : string;
  patientId : string;
  doctorId : string;
  appointmentDate : Z;
  duration : Z;
  status : Status;
  type : string;
  reason : JValue;
  symptoms : JValue;
  notes : JValue;
  diagnosis : JValue;
  prescription : JValue;
  followUpRequired : JValue;
  followUpDate : JValue;
  cost : JValue;
  paymentStatus : option PaymentStatus;
  reminderSent : bool;
  reminderSentAt : JValue;
  cancelledAt : JValue;
  cancelledBy : JValue;
  cancellationReason : JValue
}.

(** The tables a handler reads and writes. *)
Record Store := mkStore {
  patients : list Patient;
  doctors : list Doctor;
  appointments : list Appointment
}.

(** [Model.findByPk(id)] *)
Definition findPatientByPk (s : Store) (k : string) : option Patient :=
  find (fun p => String.eqb (patient_id p) k) (patients s).

Definition findDoctorByPk (s : Store) (k : string) : option Doctor :=
  find (fun d => String.eqb (doctor_id d) k) (doctors s).

Definition findAppointmentByPk (s : Store) (k : string) : option Appointment :=
  find (fun a => String.eqb (id a) k) (appointments s).

(** [Model.findOne({ where: { userId } })] *)
Definition findPatientByUser (s : Store) (uid : string) : option Patient :=
  find (fun p => String.eqb (patient_userId p) uid) (patients s).

Definition findDoctorByUser (s : Store) (uid : string) : option Doctor :=
  find (fun d => String.eqb (doctor_userId d) uid) (doctors s).

(** The appointment interval [[appointmentDate, appointmentDate + duration)]
    in milliseconds. *)
Definition startOf (a : Appointment) : Z := appointmentDate a.
Definition endOf (a : Appointment) : Z := appointmentDate a + duration a * 60000.

(** Half-open overlap of [[s1,e1)] and [[s2,e2)]. *)
Definition overlaps (s1 e1 s2 e2 : Z) : bool := (s1 <? e2) && (s2 <? e1).

(** What every handler answers with: the HTTP status and the envelope. *)
Record Response := mkResponse {
  code : Z;
  envelope : string;
  message : string
}.

Definition ok (c : Z) (m : string) : Response := mkResponse c "success" m.
Definition err (c : Z) (m : string) : Response := mkResponse c "error" m.

End Model.
Export Model.

(** ** models/Appointment.js *)

Module AppointmentModel.

(** [Appointment.prototype.canBeCancelled], with the clock reading [now] of
    [new Date()] made an argument.  [hoursUntilAppointment] is the quotient
    of two integers; it is kept as a rational.  (The double that JavaScript
    computes compares with 2 the same way: a difference of one millisecond
    moves the quotient by 2.7e-7, far above the rounding error at 2.) *)
Definition hoursUntilAppointment (a : Appointment) (now : Z) : Q :=
  (inject_Z (appointmentDate a - now) / inject_Z (1000 * 60 * 60))%Q.

Definition Qgtb (x y : Q) : bool := negb (Qle_bool x y).

Definition canBeCancelled (a : Appointment) (now : Z) : bool :=
  statusIn [scheduled; confirmed] (status a)
  && Qgtb (hoursUntilAppointment a now) (inject_Z 2).

(** The same row with another status and another start. *)
Definition rescheduled (a : Appointment) (st : Status) (start : Z) : Appointment :=
  {| id := id a;
     patientId := patientId a;
     doctorId := doctorId a;
     appointmentDate := start;
     duration := duration a;
     status := st;
     type := type a;
     reason := reason a;
     symptoms := symptoms a;
     notes := notes a;
     diagnosis := diagnosis a;
     prescription := prescription a;
     followUpRequired := followUpRequired a;
     followUpDate := followUpDate a;
     cost := cost a;
     paymentStatus := paymentStatus a;
     reminderSent := reminderSent a;
     reminderSentAt := reminderSentAt a;
     cancelledAt := cancelledAt a;
     cancelledBy := cancelledBy a;
     cancellationReason := cancellationReason a |}.

End AppointmentModel.
Export AppointmentModel.

(** ** Library functions the handlers call *)

Module Lib.

(** The functions of express-validator and of the JavaScript runtime that
    read strings.  They are not code of the repository: a handler receives
    them as [L].

    - [isUUID], [isISO8601]: the validators of the same name;
    - [Date_parse s]: the time value of [new Date(s)], [None] for an
      invalid date;
    - [tzOffset]: local time minus UTC in milliseconds, for [setHours],
      which works on local wall-clock time (a zone with a fixed offset). *)
Record Library := mkLibrary {
  isUUID : string -> bool;
  isISO8601 : string -> bool;
  Date_parse : string -> option Z;
  tzOffset : Z
}.

Definition msPerDay : Z := 86400000.

(** [d.setHours(h, m, s, ms)] on the instant [t]: the same local calendar
    day, at the given wall-clock time. *)
Definition setHours (L : Library) (t h m s ms : Z) : Z :=
  let local := t + tzOffset L in
  let midnight := local - local mod msPerDay in
  midnight + h * 3600000 + m * 60000 + s * 1000 + ms - tzOffset L.

End Lib.
Export Lib.

(** ** Reading request bodies *)

Module Body.

(** [req.body]: the JSON object of the request, by property name. *)
Abbreviation Body := (gmap string JValue).

(** The text a string validator reads from a property, and the string a
    handler takes from it: a string is itself, a property that is absent
    reads as the empty text.  Text properties hold strings; values of other
    JSON types read as the empty text too. *)
Definition textOf (o : option JValue) : string :=
  match o with
  | Some (JStr s) => s
  | _ => ""
  end.

Definition digitValue (c : ascii) : option Z :=
  let n := Z.of_nat (nat_of_ascii c) in
  if (48 <=? n) && (n <=? 57) then Some (n - 48) else None.

Fixpoint digitsValue (acc : Z) (s : string) : option Z :=
  match s with
  | EmptyString => Some acc
  | String c rest =>
      match digitValue c with
      | Some d => digitsValue (acc * 10 + d) rest
      | None => None
      end
  end.

(** An integer literal as [isInt] accepts it: an optional sign, then [0] or
    digits that do not start with [0]. *)
Definition unsignedLiteral (s : string) : option Z :=
  match s with
  | EmptyString => None
  | String "0" EmptyString => Some 0
  | String "0" _ => None
  | _ => digitsValue 0 s
  end.

Definition intLiteral (s : string) : option Z :=
  match s with
  | String "+" rest => unsignedLiteral rest
  | String "-" rest => Z.opp <$> unsignedLiteral rest
  | _ => unsignedLiteral s
  end.

(** The integer a numeric property denotes, for [isInt] and for arithmetic
    on it: a number, or a string that is an integer literal. *)
Definition intOf (v : JValue) : option Z :=
  match v with
  | JNum n => Some n
  | JStr s => intLiteral s
  | _ => None
  end.

(** [.optional()]: a property that is absent passes. *)
Definition optional (check : JValue -> bool) (o : option JValue) : bool :=
  match o with
  | Some v => check v
  | None => true
  end.

(** [.isInt({ min, max })] *)
Definition isInt (lo hi : Z) (v : JValue) : bool :=
  match intOf v with
  | Some n => (lo <=? n) && (n <=? hi)
  | None => false
  end.

(** [.isIn(xs)] *)
Definition isIn (xs : list string) (v : JValue) : bool :=
  arrayIncludes xs (textOf (Some v)).

(** [.isLength({ max })] *)
Definition isLengthMax (n : nat) (v : JValue) : bool :=
  Nat.leb (String.length (textOf (Some v))) n.

End Body.
Export Body.

(** ** routes/appointmentRoutes.js: POST / *)

Module Booking.

Definition appointmentTypes : list string :=
  ["consultation"; "follow_up"; "emergency"; "routine_checkup";
   "specialist_referral"].

(** [appointmentValidation] followed by [validationResult(req).isEmpty()] *)
Definition appointmentValidation (L : Library) (body : Body) : bool :=
  isUUID L (textOf (body !! "patientId"))
  && isUUID L (textOf (body !! "doctorId"))
  && isISO8601 L (textOf (body !! "appointmentDate"))
  && optional (isInt 15 240) (body !! "duration")
  && optional (isIn appointmentTypes) (body !! "type")
  && optional (isLengthMax 1000) (body !! "reason")
  && optional (isLengthMax 2000) (body !! "symptoms").

(** The [where] clause of the [conflictingAppointment] query: the doctor,
    a booked status, and a start that lies in
    [[appointmentStart, appointmentEnd]] ([Op.between] includes both
    ends) or in [[appointmentStart - duration, appointmentStart]], where
    [duration] is the one of the request. *)
Definition conflictWhere (doc : string) (appointmentStart appointmentEnd dur : Z)
    (a : Appointment) : bool :=
  String.eqb (doctorId a) doc
  && statusIn [scheduled; confirmed] (status a)
  && (((appointmentStart <=? appointmentDate a)
       && (appointmentDate a <=? appointmentEnd))
      || ((appointmentDate a <=? appointmentStart)
          && (appointmentDate a >=? appointmentStart - dur * 60000))).

(** [Appointment.findOne({ where })] *)
Definition conflictingAppointment (s : Store) (doc : string)
    (appointmentStart appointmentEnd dur : Z) : option Appointment :=
  find (conflictWhere doc appointmentStart appointmentEnd dur) (appointments s).

(** A column given [undefined] is stored as [null]. *)
Definition column (o : option JValue) : JValue := default JNull o.

(** [Appointment.create({...})]: the given columns, the model defaults for
    the others, the primary key [newId] drawn by the store. *)
Definition newAppointment (newId patient doc : string)
    (appointmentStart dur : Z) (ty : string) (rsn sym : option JValue)
    : Appointment :=
  {| id := newId;
     patientId := patient;
     doctorId := doc;
     appointmentDate := appointmentStart;
     duration := dur;
     status := scheduled;
     type := ty;
     reason := column rsn;
     symptoms := column sym;
     notes := JNull;
     diagnosis := JNull;
     prescription := JNull;
     followUpRequired := JBool false;
     followUpDate := JNull;
     cost := JNull;
     paymentStatus := Some pay_pending;
     reminderSent := false;
     reminderSentAt := JNull;
     cancelledAt := JNull;
     cancelledBy := JNull;
     cancellationReason := JNull |}.

Definition createAppointment (s : Store) (a : Appointment) : Store :=
  {| patients := patients s;
     doctors := doctors s;
     appointments := appointments s ++ [a] |}.

(** [router.post('/', appointmentValidation, ...)].  [now] is the reading of
    [new Date()] in the future check, [newId] the key of the row in case one
    is created.  The answer comes with the store the handler leaves.  A
    date that passes validation and is still an invalid date fails in the
    query, which the [catch] answers with 500. *)
Definition postAppointment (L : Library) (now : Z) (newId : string)
    (s : Store) (body : Body) : Response * Store :=
  if negb (appointmentValidation L body) then
    (err 400 "Validation failed", s)
  else
    let patient := textOf (body !! "patientId") in
    let doc := textOf (body !! "doctorId") in
    let dur := default 30 (body !! "duration" ≫= intOf) in
    let ty := default "consultation" (textOf ∘ Some <$> body !! "type") in
    match findPatientByPk s patient, findDoctorByPk s doc with
    | None, _ => (err 404 "Patient not found", s)
    | Some _, None => (err 404 "Doctor not found", s)
    | Some _, Some _ =>
        match Date_parse L (textOf (body !! "appointmentDate")) with
        | None => (err 500 "Internal server error", s)
        | Some appointmentStart =>
            let appointmentEnd := appointmentStart + dur * 60000 in
            match conflictingAppointment s doc
                    appointmentStart appointmentEnd dur with
            | Some _ =>
                (err 409 "Doctor is not available at the requested time", s)
            | None =>
                if appointmentStart <=? now then
                  (err 400 "Appointment must be scheduled for a future date", s)
                else
                  (ok 201 "Appointment scheduled successfully",
                   createAppointment s
                     (newAppointment newId patient doc appointmentStart dur ty
                        (body !! "reason") (body !! "symptoms")))
            end
        end
    end.

End Booking.
Export Booking.

(** ** routes/appointmentRoutes.js: GET /doctor/:doctorId/availability *)

Module Availability.

(** [Number(s)] for the strings a clock field is made of: a run of decimal
    digits reads as its value and the empty string as 0.  [None] stands for
    [NaN]; other spellings are not clock fields and read [None] here. *)
Definition Number (s : string) : option Z := digitsValue 0 s.

(** [s.split(':')] *)
Fixpoint splitColon (cur : string) (s : string) : list string :=
  match s with
  | EmptyString => [cur]
  | String c rest =>
      if Ascii.eqb c ":"%char then cur :: splitColon "" rest
      else splitColon (cur ++ String c "") rest
  end.

(** [const [h, m] = clock.split(':').map(Number)]: the first two fields.
    A missing second field is [undefined], which [setHours] turns into an
    invalid date just as [NaN] does. *)
Definition clockFields (clock : string) : option (Z * Z) :=
  match List.map Number (splitColon "" clock) with
  | Some h :: Some m :: _ => Some (h, m)
  | _ => None
  end.

Record Slot := mkSlot {
  slot_start : Z;
  slot_end : Z;
  slot_duration : Z
}.

(** [doctor.consultationDuration || 30] *)
Definition slotMinutes (d : Doctor) : Z :=
  match consultationDuration d with
  | Some n => if n =? 0 then 30 else n
  | None => 30
  end.

(** [doctor.availableHours?.start || '09:00'] and the same for [end] *)
Definition startHour (d : Doctor) : string :=
  match availableHours d with
  | Some h => if String.eqb (hours_start h) "" then "09:00" else hours_start h
  | None => "09:00"
  end.

Definition endHour (d : Doctor) : string :=
  match availableHours d with
  | Some h => if String.eqb (hours_end h) "" then "17:00" else hours_end h
  | None => "17:00"
  end.

(** [startTime] and [endTime]: the day of [startOfDay] at the two clock
    readings; [None] when either is an invalid date. *)
Definition window (L : Library) (d : Doctor) (startOfDay : Z) : option (Z * Z) :=
  match clockFields (startHour d), clockFields (endHour d) with
  | Some (startHourNum, startMinNum), Some (endHourNum, endMinNum) =>
      Some (setHours L startOfDay startHourNum startMinNum 0 0,
            setHours L startOfDay endHourNum endMinNum 0 0)
  | _, _ => None
  end.

(** The test inside [appointments.some(...)] *)
Definition slotConflicts (currentTime slotEnd : Z) (a : Appointment) : bool :=
  let appointmentStart := appointmentDate a in
  let appointmentEnd := appointmentStart + duration a * 60000 in
  (currentTime <? appointmentEnd) && (slotEnd >? appointmentStart).

(** [while (currentTime < endTime) { ... }].  Each turn of the loop spends
    one unit of [fuel]; [None] is a loop that has not ended when the fuel is
    gone. *)
Fixpoint slotLoop (fuel : nat) (appts : list Appointment) (mins : Z)
    (currentTime endTime : Z) : option (list Slot) :=
  if currentTime <? endTime then
    match fuel with
    | O => None
    | S fuel' =>
        let slotEnd := currentTime + mins * 60000 in
        let hasConflict := existsb (slotConflicts currentTime slotEnd) appts in
        match slotLoop fuel' appts mins (currentTime + mins * 60000) endTime with
        | Some later =>
            Some (if hasConflict then later
                  else mkSlot currentTime slotEnd mins :: later)
        | None => None
        end
    end
  else Some [].

(** Lines 534-571: the slots of one doctor on the day that starts at
    [startOfDay], given the appointments fetched for that day.  A window
    with an invalid date makes the loop test false at once. *)
Definition availableSlots (L : Library) (fuel : nat) (d : Doctor)
    (startOfDay : Z) (appts : list Appointment) : option (list Slot) :=
  match window L d startOfDay with
  | Some (startTime, endTime) =>
      slotLoop fuel appts (slotMinutes d) startTime endTime
  | None => Some []
  end.

(** [order: [['appointmentDate', 'ASC']]] *)
Fixpoint insertByDate (a : Appointment) (l : list Appointment) : list Appointment :=
  match l with
  | [] => [a]
  | b :: rest =>
      if appointmentDate a <=? appointmentDate b then a :: l
      else b :: insertByDate a rest
  end.

Definition orderByDate (l : list Appointment) : list Appointment :=
  fold_right insertByDate [] l.

(** The [where] clause of the [findAll] of the route. *)
Definition dayWhere (doc : string) (startOfDay endOfDay : Z) (a : Appointment) : bool :=
  String.eqb (doctorId a) doc
  && ((startOfDay <=? appointmentDate a) && (appointmentDate a <=? endOfDay))
  && statusIn [scheduled; confirmed] (status a).

Definition dayAppointments (s : Store) (doc : string) (startOfDay endOfDay : Z)
    : list Appointment :=
  orderByDate (List.filter (dayWhere doc startOfDay endOfDay) (appointments s)).

(** [date ? new Date(date) : new Date()] *)
Definition targetDate (L : Library) (now : Z) (date : option string) : option Z :=
  match date with
  | Some d => if String.eqb d "" then Some now else Date_parse L d
  | None => Some now
  end.

Record AvailabilityData := mkAvailabilityData {
  availableSlotsOut : list Slot;
  existingAppointments : list Appointment
}.

(** The route.  An invalid [date] reaches the store as an invalid date and
    the query fails, which the [catch] answers with 500. *)
Definition getAvailability (L : Library) (fuel : nat) (now : Z) (s : Store)
    (doc : string) (date : option string)
    : option (Response * option AvailabilityData) :=
  match findDoctorByPk s doc with
  | None => Some (err 404 "Doctor not found", None)
  | Some d =>
      match targetDate L now date with
      | None => Some (err 500 "Internal server error", None)
      | Some t =>
          let startOfDay := setHours L t 0 0 0 0 in
          let endOfDay := setHours L startOfDay 23 59 59 999 in
          let appts := dayAppointments s doc startOfDay endOfDay in
          match availableSlots L fuel d startOfDay appts with
          | Some slots =>
              Some (ok 200 "", Some (mkAvailabilityData slots appts))
          | None => None
          end
      end
  end.

(** *** The partition the specification describes

    The daily window [[ws, we)] is cut into consecutive chunks of [mins]
    minutes from [ws]; chunk [k] is [[ws + k * len, ws + (k + 1) * len)].
    There is one chunk for every chunk start below [we]. *)
Definition chunkCount (ws we mins : Z) : nat :=
  Z.to_nat ((we - ws + mins * 60000 - 1) / (mins * 60000)).

Definition chunk (ws mins : Z) (k : nat) : Slot :=
  mkSlot (ws + Z.of_nat k * (mins * 60000))
         (ws + (Z.of_nat k + 1) * (mins * 60000))
         mins.

Definition chunkFree (appts : list Appointment) (c : Slot) : bool :=
  negb (existsb (fun a => overlaps (slot_start c) (slot_end c) (startOf a) (endOf a))
                appts).

Definition referenceSlots (ws we mins : Z) (appts : list Appointment) : list Slot :=
  List.filter (chunkFree appts)
              (List.map (chunk ws mins) (seq 0 (chunkCount ws we mins))).

End Availability.
Export Availability.

(** ** routes/appointmentRoutes.js: GET /:id and PUT /:id *)

Module Access.

(** [if (req.user.role === 'patient') { ... }]: the actor is a patient and
    has no patient profile, or one with another id than the appointment's. *)
Definition patientDenied (s : Store) (u : User) (a : Appointment) : bool :=
  Role_eqb (user_role u) patient
  && match findPatientByUser s (user_id u) with
     | None => true
     | Some userPatient => negb (String.eqb (patient_id userPatient) (patientId a))
     end.

(** [if (req.user.role === 'doctor') { ... }] *)
Definition doctorDenied (s : Store) (u : User) (a : Appointment) : bool :=
  Role_eqb (user_role u) doctor
  && match findDoctorByUser s (user_id u) with
     | None => true
     | Some userDoctor => negb (String.eqb (doctor_id userDoctor) (doctorId a))
     end.

(** [router.get('/:id', ...)]: the answer and, with 200, the appointment. *)
Definition getAppointment (s : Store) (u : User) (k : string)
    : Response * option Appointment :=
  match findAppointmentByPk s k with
  | None => (err 404 "Appointment not found", None)
  | Some a =>
      if patientDenied s u a then (err 403 "Access denied", None)
      else if doctorDenied s u a then (err 403 "Access denied", None)
      else (ok 200 "", Some a)
  end.

(** The actor has a patient profile and its id is the appointment's
    [patientId]. *)
Definition ownProfile (s : Store) (u : User) (a : Appointment) : Prop :=
  exists p, findPatientByUser s (user_id u) = Some p
            /\ patient_id p = patientId a.

(** [allowedFields], after the [push] for a doctor. *)
Definition allowedFields (r : Role) : list string :=
  ["notes"; "diagnosis"; "prescription"; "followUpRequired"; "followUpDate"]
  ++ (if Role_eqb r doctor then ["status"; "cost"; "paymentStatus"] else []).

(** [Object.keys(req.body).forEach(key => { if (allowedFields.includes(key))
    updateData[key] = req.body[key]; })] *)
Definition updateData (r : Role) (body : Body) : Body :=
  filter (fun kv => arrayIncludes (allowedFields r) kv.1 = true) body.

(** The members of the two enumerated columns a doctor may set.  [status]
    does not take [null], [paymentStatus] does. *)
Definition statusOfText (s : string) : option Status :=
  if String.eqb s "scheduled" then Some scheduled
  else if String.eqb s "confirmed" then Some confirmed
  else if String.eqb s "in_progress" then Some in_progress
  else if String.eqb s "completed" then Some completed
  else if String.eqb s "cancelled" then Some cancelled
  else if String.eqb s "no_show" then Some no_show
  else None.

Definition paymentOfText (s : string) : option PaymentStatus :=
  if String.eqb s "pending" then Some pay_pending
  else if String.eqb s "paid" then Some pay_paid
  else if String.eqb s "partial" then Some pay_partial
  else if String.eqb s "cancelled" then Some pay_cancelled
  else None.

(** One column of [instance.update(values)]: kept when [values] has no such
    key, set otherwise; [None] when the value is no member of the column's
    type. *)
Definition statusOfValue (v : JValue) : option Status :=
  match v with
  | JStr s => statusOfText s
  | _ => None
  end.

Definition paymentOfValue (v : JValue) : option (option PaymentStatus) :=
  match v with
  | JNull => Some None
  | JStr s => Some <$> paymentOfText s
  | _ => None
  end.

Definition setEnum {A} (old : A) (read : JValue -> option A)
    (o : option JValue) : option A :=
  match o with
  | None => Some old
  | Some v => read v
  end.

Definition setJson (old : JValue) (o : option JValue) : JValue := default old o.

(** [appointment.update(values)]: every column named in [values] takes its
    value, the others stay.  [None] is the update the store rejects (a
    value outside an enumeration), which throws.  The free-form columns are
    stored as given. *)
Definition update (a : Appointment) (values : Body) : option Appointment :=
  match setEnum (status a) statusOfValue (values !! "status"),
        setEnum (paymentStatus a) paymentOfValue (values !! "paymentStatus") with
  | Some st, Some pay =>
      Some {| id := id a;
              patientId := patientId a;
              doctorId := doctorId a;
              appointmentDate := appointmentDate a;
              duration := duration a;
              status := st;
              type := type a;
              reason := reason a;
              symptoms := symptoms a;
              notes := setJson (notes a) (values !! "notes");
              diagnosis := setJson (diagnosis a) (values !! "diagnosis");
              prescription := setJson (prescription a) (values !! "prescription");
              followUpRequired :=
                setJson (followUpRequired a) (values !! "followUpRequired");
              followUpDate := setJson (followUpDate a) (values !! "followUpDate");
              cost := setJson (cost a) (values !! "cost");
              paymentStatus := pay;
              reminderSent := reminderSent a;
              reminderSentAt := reminderSentAt a;
              cancelledAt := cancelledAt a;
              cancelledBy := cancelledBy a;
              cancellationReason := cancellationReason a |}
  | _, _ => None
  end.

(** The row with the key of [a'] is written back. *)
Fixpoint saveRow (a' : Appointment) (l : list Appointment) : list Appointment :=
  match l with
  | [] => []
  | r :: rest =>
      if String.eqb (id r) (id a') then a' :: rest
      else r :: saveRow a' rest
  end.

Definition saveAppointment (s : Store) (a' : Appointment) : Store :=
  {| patients := patients s;
     doctors := doctors s;
     appointments := saveRow a' (appointments s) |}.

(** [router.put('/:id', appointmentValidation, ...)] *)
Definition putAppointment (L : Library) (s : Store) (u : User) (k : string)
    (body : Body) : Response * Store :=
  if negb (appointmentValidation L body) then
    (err 400 "Validation failed", s)
  else
    match findAppointmentByPk s k with
    | None => (err 404 "Appointment not found", s)
    | Some a =>
        if patientDenied s u a then (err 403 "Access denied", s)
        else if doctorDenied s u a then (err 403 "Access denied", s)
        else
          match update a (updateData (user_role u) body) with
          | Some a' =>
              (ok 200 "Appointment updated successfully", saveAppointment s a')
          | None => (err 500 "Internal server error", s)
          end
    end.

(** The columns of an appointment, by name. *)
Inductive Column :=
| c_id | c_patientId | c_doctorId | c_appointmentDate | c_duration | c_status
| c_type | c_reason | c_symptoms | c_notes | c_diagnosis | c_prescription
| c_followUpRequired | c_followUpDate | c_cost | c_paymentStatus
| c_reminderSent | c_reminderSentAt | c_cancelledAt | c_cancelledBy
| c_cancellationReason.

Definition columnName (c : Column) : string :=
  match c with
  | c_id => "id" | c_patientId => "patientId" | c_doctorId => "doctorId"
  | c_appointmentDate => "appointmentDate" | c_duration => "duration"
  | c_status => "status" | c_type => "type" | c_reason => "reason"
  | c_symptoms => "symptoms" | c_notes => "notes" | c_diagnosis => "diagnosis"
  | c_prescription => "prescription"
  | c_followUpRequired => "followUpRequired"
  | c_followUpDate => "followUpDate" | c_cost => "cost"
  | c_paymentStatus => "paymentStatus" | c_reminderSent => "reminderSent"
  | c_reminderSentAt => "reminderSentAt" | c_cancelledAt => "cancelledAt"
  | c_cancelledBy => "cancelledBy"
  | c_cancellationReason => "cancellationReason"
  end.

(** Two rows hold the same value in column [c]. *)
Definition agreeOn (c : Column) (a a' : Appointment) : Prop :=
  match c with
  | c_id => id a = id a'
  | c_patientId => patientId a = patientId a'
  | c_doctorId => doctorId a = doctorId a'
  | c_appointmentDate => appointmentDate a = appointmentDate a'
  | c_duration => duration a = duration a'
  | c_status => status a = status a'
  | c_type => type a = type a'
  | c_reason => reason a = reason a'
  | c_symptoms => symptoms a = symptoms a'
  | c_notes => notes a = notes a'
  | c_diagnosis => diagnosis a = diagnosis a'
  | c_prescription => prescription a = prescription a'
  | c_followUpRequired => followUpRequired a = followUpRequired a'
  | c_followUpDate => followUpDate a = followUpDate a'
  | c_cost => cost a = cost a'
  | c_paymentStatus => paymentStatus a = paymentStatus a'
  | c_reminderSent => reminderSent a = reminderSent a'
  | c_reminderSentAt => reminderSentAt a = reminderSentAt a'
  | c_cancelledAt => cancelledAt a = cancelledAt a'
  | c_cancelledBy => cancelledBy a = cancelledBy a'
  | c_cancellationReason => cancellationReason a = cancellationReason a'
  end.

End Access.
Export Access.

(** ** middleware/auditLogger.js and models/AuditLog.js *)

Module Audit.

(** What [res.send] was called with. *)
Inductive Sent :=
| SentText (s : string)
| SentValue (v : JValue).

(** The request as the middleware reads it.  [req_statusCode] is the
    [statusCode] property of the request object itself; on a request that a
    server receives it holds no number ([None]). *)
Record Request := mkRequest {
  req_method : string;
  req_path : string;
  req_user : option User;
  req_statusCode : option Z;
  req_body : option Body;
  req_query : option Body;
  req_params : option Body;
  req_ip : option string;
  req_userAgent : option string;
  req_sessionID : option string;
  req_requestId : option string
}.

(** The response once it is finished: [res.statusCode] and what was sent. *)
Record Reply := mkReply {
  reply_statusCode : Z;
  reply_sent : option Sent
}.

Definition roleName (r : Role) : string :=
  match r with
  | admin => "admin"
  | doctor => "doctor"
  | patient => "patient"
  end.

(** [x >= n] for a property that may hold no number: the comparison is
    false then ([n] is positive wherever this is used). *)
Definition geNum (x : option Z) (n : Z) : bool :=
  match x with
  | Some v => v >=? n
  | None => false
  end.

Definition getActionFromRequest (req : Request) : string :=
  let method := req_method req in
  let path := req_path req in
  if includes path "/auth/login" then "login_attempt"
  else if includes path "/auth/logout" then "logout"
  else if includes path "/auth/register" then "user_registration"
  else if includes path "/auth/change-password" then "password_change"
  else if String.eqb method "GET" then "read"
  else if String.eqb method "POST" then "create"
  else if String.eqb method "PUT" || String.eqb method "PATCH" then "update"
  else if String.eqb method "DELETE" then "delete"
  else "unknown".

Definition getResourceFromEndpoint (path : string) : string :=
  if includes path "/users" then "user"
  else if includes path "/patients" then "patient"
  else if includes path "/doctors" then "doctor"
  else if includes path "/appointments" then "appointment"
  else if includes path "/medical-records" then "medical_record"
  else if includes path "/patient-doctors" then "patient_doctor_relationship"
  else if includes path "/auth" then "authentication"
  else if includes path "/upload" then "file_upload"
  else "unknown".

(** [req.user?.role === 'patient'] *)
Definition isPatientActor (req : Request) : bool :=
  match req_user req with
  | Some u => Role_eqb (user_role u) patient
  | None => false
  end.

Definition getCategoryFromRequest (req : Request) (action : string) : string :=
  let path := req_path req in
  if includes path "/auth" then "authentication"
  else if String.eqb action "read" && isPatientActor req then "data_access"
  else if arrayIncludes ["create"; "update"; "delete"] action then "data_modification"
  else if includes path "/upload" then "system"
  else if geNum (req_statusCode req) 400 then "error"
  else "system".

Definition getSeverityFromRequest (req : Request) (action : string) : string :=
  let path := req_path req in
  let statusCode := req_statusCode req in
  if String.eqb action "login_attempt" && geNum statusCode 400 then "high"
  else if includes path "/auth/change-password" then "high"
  else if String.eqb action "delete" then "high"
  else if geNum statusCode 500 then "critical"
  else if geNum statusCode 400 then "medium"
  else "low".

(** Decimal digits of a status code, for the template string. *)
Fixpoint decimalDigits (fuel : nat) (n : Z) (acc : string) : string :=
  match fuel with
  | O => acc
  | S fuel' =>
      let acc' := String (ascii_of_nat (Z.to_nat (48 + n mod 10))) acc in
      if n / 10 =? 0 then acc' else decimalDigits fuel' (n / 10) acc'
  end.

Definition numberText (n : Z) : string :=
  if n <? 0 then "-" ++ decimalDigits (Z.to_nat (Z.log2 (- n) + 1)) (- n) ""
  else decimalDigits (Z.to_nat (Z.log2 n + 1)) n "".

Definition userRoleOf (req : Request) : string :=
  match req_user req with
  | Some u => roleName (user_role u)
  | None => "anonymous"
  end.

Definition generateDescription (req : Request) (action : string) (statusCode : Z)
    : string :=
  let description :=
    userRoleOf req ++ " performed " ++ action ++ " on " ++ req_path req in
  if statusCode >=? 400
  then description ++ " (failed with status " ++ numberText statusCode ++ ")"
  else description ++ " (successful)".

(** *** Sanitisation *)

Record SanitizedRequest := mkSanitizedRequest {
  sr_params : Body;
  sr_query : Body;
  sr_body : option Body
}.

Definition sensitiveFields : list string :=
  ["password"; "token"; "secret"; "key"; "ssn"; "creditCard"].

Definition REDACTED : JValue := JStr "[REDACTED]".

(** [if (sanitized.body[field]) sanitized.body[field] = '[REDACTED]'] *)
Definition redactField (body : Body) (field : string) : Body :=
  if truthyProp (body !! field) then <[field := REDACTED]> body else body.

Definition sanitizeRequestData (body query params : option Body) : SanitizedRequest :=
  {| sr_params := default ∅ params;
     sr_query := default ∅ query;
     sr_body :=
       match body with
       | Some b => Some (foldl redactField b sensitiveFields)
       | None => None
       end |}.

(** [if (!data)] on what was sent. *)
Definition sentTruthy (d : Sent) : bool :=
  match d with
  | SentText s => negb (String.eqb s "")
  | SentValue v => truthy v
  end.

Fixpoint assoc (k : string) (props : list (string * JValue)) : option JValue :=
  match props with
  | [] => None
  | (k', v) :: rest => if String.eqb k k' then Some v else assoc k rest
  end.

(** [parsed.k] for one of the names [status], [message], [data]: [None] is
    the [TypeError] of reading a property of [null]; [Some None] is
    [undefined], which is what every value that is not an object with that
    property gives. *)
Definition getProp (parsed : JValue) (k : string) : option (option JValue) :=
  match parsed with
  | JNull => None
  | JObj props => Some (assoc k props)
  | _ => Some None
  end.

(** [x || fallback] *)
Definition orElse (o : option JValue) (fallback : JValue) : JValue :=
  match o with
  | Some v => if truthy v then v else fallback
  | None => fallback
  end.

(** [parsed.data ? (Array.isArray(parsed.data) ? parsed.data.length : 1) : 0] *)
Definition dataCount (o : option JValue) : Z :=
  match o with
  | Some (JArr items) => Z.of_nat (List.length items)
  | Some v => if truthy v then 1 else 0
  | None => 0
  end.

Definition parseFailure : JValue :=
  JObj [("error", JStr "Failed to parse response data")].

Section Sanitize.

(** [JSON.parse]; [None] is a [SyntaxError]. *)
Variable JSON_parse : string -> option JValue.

(** The value stored in the [responseData] column: [null], the summary
    object, or the marker of the [catch]. *)
Definition sanitizeResponseData (data : option Sent) : JValue :=
  match data with
  | None => JNull
  | Some d =>
      if negb (sentTruthy d) then JNull
      else
        let parsed :=
          match d with
          | SentText s => JSON_parse s
          | SentValue v => Some v
          end in
        match parsed with
        | None => parseFailure
        | Some p =>
            match getProp p "status", getProp p "message", getProp p "data" with
            | Some st, Some msg, Some dat =>
                JObj [("status", orElse st (JStr "unknown"));
                      ("message", orElse msg JNull);
                      ("dataCount", JNum (dataCount dat))]
            | _, _, _ => parseFailure
            end
        end
  end.

End Sanitize.

(** *** Audit entries *)

Inductive RequestData :=
| Sanitized (r : SanitizedRequest)
| EmailOnly (email : option JValue).

Record Metadata := mkMetadata {
  md_userRole : string;
  md_timestamp : Z;
  md_requestId : option string
}.

(** The object handed to [AuditLog.logAction].  A property that the caller
    leaves out is [None]. *)
Record AuditData := mkAuditData {
  d_userId : option string;
  d_action : string;
  d_resource : string;
  d_resourceId : option string;
  d_method : option string;
  d_endpoint : option string;
  d_ipAddress : option string;
  d_userAgent : option string;
  d_requestData : option RequestData;
  d_responseData : option JValue;
  d_statusCode : option Z;
  d_duration : option Z;
  d_severity : option string;
  d_category : option string;
  d_description : option string;
  d_metadata : option Metadata;
  d_sessionId : option string;
  d_isSuccessful : option bool;
  d_errorMessage : option Sent
}.

(** A row of [audit_logs]. *)
Record AuditLog := mkAuditLog {
  userId : option string;
  action : string;
  resource : string;
  resourceId : option string;
  method : option string;
  endpoint : option string;
  ipAddress : option string;
  userAgent : option string;
  requestData : option RequestData;
  responseData : option JValue;
  statusCode : option Z;
  duration_ms : option Z;
  severity : string;
  category : string;
  description : option string;
  metadata : option Metadata;
  sessionId : option string;
  isSuccessful : bool;
  errorMessage : option Sent
}.

(** [s || fallback] on a string property. *)
Definition orText (o : option string) (fallback : string) : string :=
  match o with
  | Some s => if String.eqb s "" then fallback else s
  | None => fallback
  end.

(** The argument of [AuditLog.create] in [logAction]. *)
Definition rowOf (data : AuditData) : AuditLog :=
  {| userId := d_userId data;
     action := d_action data;
     resource := d_resource data;
     resourceId := d_resourceId data;
     method := d_method data;
     endpoint := d_endpoint data;
     ipAddress := d_ipAddress data;
     userAgent := d_userAgent data;
     requestData := d_requestData data;
     responseData := d_responseData data;
     statusCode := d_statusCode data;
     duration_ms := d_duration data;
     severity := orText (d_severity data) "low";
     category := orText (d_category data) "system";
     description := d_description data;
     metadata := d_metadata data;
     sessionId := d_sessionId data;
     isSuccessful := negb (bool_decide (d_isSuccessful data = Some false));
     errorMessage := d_errorMessage data |}.

(** What a request leaves behind: the entity tables, the audit table and
    the lines written with [console.error]. *)
Record World := mkWorld {
  entities : Store;
  auditLogs : list AuditLog;
  console : list string
}.

(** A call that returns or throws. *)
Inductive Result (A : Type) :=
| Returned (a : A)
| Thrown (e : string).
Arguments Returned {A} a.
Arguments Thrown {A} e.

Section Recorder.

Variable JSON_parse : string -> option JValue.

(** [AuditLog.create]: the insert into [audit_logs], which returns the row
    or throws, as the store decides. *)
Variable AuditLog_create : AuditLog -> list AuditLog -> Result AuditLog.

(** [AuditLog.logAction]: [try { return await AuditLog.create(...) }
    catch (error) { console.error(...); return null }] *)
Definition logAction (data : AuditData) (w : World) : option AuditLog * World :=
  match AuditLog_create (rowOf data) (auditLogs w) with
  | Returned log =>
      (Some log,
       {| entities := entities w;
          auditLogs := auditLogs w ++ [log];
          console := console w |})
  | Thrown e =>
      (None,
       {| entities := entities w;
          auditLogs := auditLogs w;
          console := console w ++ ["Failed to create audit log: " ++ e] |})
  end.

(** [req.params.id || null] *)
Definition paramId (req : Request) : option string :=
  match req_params req ≫= (fun ps => ps !! "id") with
  | Some (JStr s) => if String.eqb s "" then None else Some s
  | _ => None
  end.

(** The object built in the [finish] handler of [auditLogger].  [action],
    [resource], [category] and [severity] were derived from the request
    when it came in; [startTime] and [finishTime] are the two readings of
    [Date.now()]. *)
Definition finishData (req : Request) (reply : Reply) (startTime finishTime : Z)
    : AuditData :=
  let action := getActionFromRequest req in
  let resource := getResourceFromEndpoint (req_path req) in
  let category := getCategoryFromRequest req action in
  let severity := getSeverityFromRequest req action in
  {| d_userId := user_id <$> req_user req;
     d_action := action;
     d_resource := resource;
     d_resourceId := paramId req;
     d_method := Some (req_method req);
     d_endpoint := Some (req_path req);
     d_ipAddress := req_ip req;
     d_userAgent := req_userAgent req;
     d_requestData :=
       Some (Sanitized (sanitizeRequestData (req_body req) (req_query req)
                          (req_params req)));
     d_responseData :=
       Some (sanitizeResponseData JSON_parse (reply_sent reply));
     d_statusCode := Some (reply_statusCode reply);
     d_duration := Some (finishTime - startTime);
     d_severity := Some severity;
     d_category := Some category;
     d_description :=
       Some (generateDescription req action (reply_statusCode reply));
     d_metadata :=
       Some {| md_userRole := userRoleOf req;
               md_timestamp := finishTime;
               md_requestId := req_requestId req |};
     d_sessionId := req_sessionID req;
     d_isSuccessful := Some (reply_statusCode reply <? 400);
     d_errorMessage :=
       if reply_statusCode reply >=? 400 then reply_sent reply else None |}.

(** [res.on('finish', async () => { try { ... await AuditLog.logAction(...) }
    catch (error) { console.error('Audit logging error:', error) } })].
    Everything the [try] calls returns: the sanitisers and the description
    are total and [logAction] catches the failure of the insert itself. *)
Definition onFinish (req : Request) (reply : Reply) (startTime finishTime : Z)
    (w : World) : World :=
  snd (logAction (finishData req reply startTime finishTime) w).

(** [auditLogger()(req, res, next)]: [next] is the rest of the chain, which
    answers the request from the entity tables and leaves them changed or
    not; the [finish] handler runs once that answer is complete. *)
Definition auditLogger (next : Request -> Store -> Reply * Store)
    (startTime finishTime : Z) (req : Request) (w : World) : Reply * World :=
  let (reply, entities') := next req (entities w) in
  let answered :=
    {| entities := entities';
       auditLogs := auditLogs w;
       console := console w |} in
  (reply, onFinish req reply startTime finishTime answered).

(** [logAuthenticationEvent] *)
Definition logAuthenticationEvent (data : AuditData) (w : World)
    : option AuditLog * World :=
  logAction
    {| d_userId := d_userId data;
       d_action := d_action data;
       d_resource := d_resource data;
       d_resourceId := d_resourceId data;
       d_method := d_method data;
       d_endpoint := d_endpoint data;
       d_ipAddress := d_ipAddress data;
       d_userAgent := d_userAgent data;
       d_requestData := d_requestData data;
       d_responseData := d_responseData data;
       d_statusCode := d_statusCode data;
       d_duration := d_duration data;
       d_severity := Some (orText (d_severity data) "medium");
       d_category := Some "authentication";
       d_description := d_description data;
       d_metadata := d_metadata data;
       d_sessionId := d_sessionId data;
       d_isSuccessful := d_isSuccessful data;
       d_errorMessage := d_errorMessage data |}
    w.

(** [auditLoginAttempt(req, isSuccessful, errorMessage)] *)
Definition auditLoginAttempt (req : Request) (successful : bool)
    (errorMessage : option Sent) (w : World) : option AuditLog * World :=
  logAuthenticationEvent
    {| d_userId := user_id <$> req_user req;
       d_action := "login_attempt";
       d_resource := "authentication";
       d_resourceId := None;
       d_method := None;
       d_endpoint := None;
       d_ipAddress := req_ip req;
       d_userAgent := req_userAgent req;
       d_requestData := Some (EmailOnly (req_body req ≫= (fun b => b !! "email")));
       d_responseData := None;
       d_statusCode := Some (if successful then 200 else 401);
       d_duration := None;
       d_severity := None;
       d_category := None;
       d_description :=
         Some (if successful then "Successful login" else "Failed login attempt");
       d_metadata := None;
       d_sessionId := None;
       d_isSuccessful := Some successful;
       d_errorMessage := errorMessage |}
    w.

End Recorder.

End Audit.
Export Audit.

(** ** A runtime to evaluate the handlers on

    A server that runs in UTC.  [isUUID] accepts the 8-4-4-4-12 hexadecimal
    form; dates are read in the two forms [YYYY-MM-DD] and
    [YYYY-MM-DDTHH:MM:SS.mmmZ] (the one [toISOString] prints), both of which
    [isISO8601] accepts and [new Date] reads as UTC. *)

Module UtcRuntime.

Definition isHex (c : ascii) : bool :=
  let n := nat_of_ascii c in
  (Nat.leb 48 n && Nat.leb n 57)
  || (Nat.leb 65 n && Nat.leb n 70)
  || (Nat.leb 97 n && Nat.leb n 102).

Fixpoint uuidShape (i : nat) (s : string) : bool :=
  match s with
  | EmptyString => Nat.eqb i 36
  | String c rest =>
      (if existsb (Nat.eqb i) [8; 13; 18; 23]%nat
       then Ascii.eqb c "-"%char else isHex c)
      && uuidShape (S i) rest
  end.

(** Days from 1970-01-01 to the given day of the proleptic Gregorian
    calendar. *)
Definition daysFromCivil (y m d : Z) : Z :=
  let y' := if m <=? 2 then y - 1 else y in
  let era := y' / 400 in
  let yoe := y' - era * 400 in
  let mp := (m + 9) mod 12 in
  let doy := (153 * mp + 2) / 5 + d - 1 in
  let doe := yoe * 365 + yoe / 4 - yoe / 100 + doy in
  era * 146097 + doe - 719468.

(** The number written with [len] digits at position [pos]. *)
Definition field (pos len : nat) (s : string) : option Z :=
  let part := substring pos len s in
  if Nat.eqb (String.length part) len then digitsValue 0 part else None.

Definition charAt (pos : nat) (c : ascii) (s : string) : bool :=
  match String.get pos s with
  | Some c' => Ascii.eqb c c'
  | None => false
  end.

Definition within (lo hi : Z) (o : option Z) : option Z :=
  match o with
  | Some n => if (lo <=? n) && (n <=? hi) then Some n else None
  | None => None
  end.

Definition dayPart (s : string) : option Z :=
  if charAt 4 "-" s && charAt 7 "-" s then
    match field 0 4 s, within 1 12 (field 5 2 s), within 1 31 (field 8 2 s) with
    | Some y, Some m, Some d => Some (daysFromCivil y m d * 86400000)
    | _, _, _ => None
    end
  else None.

Definition timePart (s : string) : option Z :=
  if charAt 10 "T" s && charAt 13 ":" s && charAt 16 ":" s
     && charAt 19 "." s && charAt 23 "Z" s then
    match within 0 23 (field 11 2 s), within 0 59 (field 14 2 s),
          within 0 59 (field 17 2 s), field 20 3 s with
    | Some h, Some mi, Some sec, Some ms =>
        Some (h * 3600000 + mi * 60000 + sec * 1000 + ms)
    | _, _, _, _ => None
    end
  else None.

Definition parse (s : string) : option Z :=
  if Nat.eqb (String.length s) 10 then dayPart s
  else if Nat.eqb (String.length s) 24 then
    match dayPart s, timePart s with
    | Some d, Some t => Some (d + t)
    | _, _ => None
    end
  else None.

Definition lib : Library :=
  {| isUUID := uuidShape 0;
     isISO8601 := fun s => bool_decide (is_Some (parse s));
     Date_parse := parse;
     tzOffset := 0 |}.

(** The instant a date string denotes. *)
Definition instant (s : string) : Z := default 0 (parse s).

(** Sample rows. *)
Definition patientA : string := "aaaaaaaa-0000-4000-8000-000000000001".
Definition patientB : string := "aaaaaaaa-0000-4000-8000-000000000002".
Definition doctorD : string := "dddddddd-0000-4000-8000-000000000001".
Definition userA : string := "eeeeeeee-0000-4000-8000-000000000001".
Definition userB : string := "eeeeeeee-0000-4000-8000-000000000002".
Definition userD : string := "eeeeeeee-0000-4000-8000-00000000000d".
Definition row1 : string := "bbbbbbbb-0000-4000-8000-000000000001".
Definition row2 : string := "bbbbbbbb-0000-4000-8000-000000000002".

(** An appointment of [patientA] with [doctorD]. *)
Definition appointmentRow (k : string) (start mins : Z) (st : Status) : Appointment :=
  {| id := k;
     patientId := patientA;
     doctorId := doctorD;
     appointmentDate := start;
     duration := mins;
     status := st;
     type := "consultation";
     reason := JNull;
     symptoms := JNull;
     notes := JNull;
     diagnosis := JNull;
     prescription := JNull;
     followUpRequired := JBool false;
     followUpDate := JNull;
     cost := JNull;
     paymentStatus := Some pay_pending;
     reminderSent := false;
     reminderSentAt := JNull;
     cancelledAt := JNull;
     cancelledBy := JNull;
     cancellationReason := JNull |}.

Definition clinic (hours : option Hours) (rows : list Appointment) : Store :=
  {| patients := [mkPatient patientA userA; mkPatient patientB userB];
     doctors := [mkDoctor doctorD userD hours (Some 30)];
     appointments := rows |}.

(** A booking request of [patientA] with [doctorD]. *)
Definition bookingBody (date : string) (mins : Z) : Body :=
  <["patientId" := JStr patientA]>
    (<["doctorId" := JStr doctorD]>
       (<["appointmentDate" := JStr date]>
          (<["duration" := JNum mins]> ∅))).

(** A login that is turned down: the request, and the 401 answer with its
    JSON text. *)
Definition quote : string := String (ascii_of_nat 34) EmptyString.

Definition rejectedText : string :=
  "{" ++ quote ++ "status" ++ quote ++ ":" ++ quote ++ "error" ++ quote ++ ","
  ++ quote ++ "message" ++ quote ++ ":" ++ quote ++ "Invalid email or password"
  ++ quote ++ "}".

Definition loginRequest : Request :=
  {| req_method := "POST";
     req_path := "/api/auth/login";
     req_user := None;
     req_statusCode := None;
     req_body :=
       Some (<["email" := JStr "ana@example.org"]>
               (<["password" := JStr "not-the-password"]> ∅));
     req_query := Some ∅;
     req_params := Some ∅;
     req_ip := Some "203.0.113.7";
     req_userAgent := Some "curl/8.5.0";
     req_sessionID := None;
     req_requestId := None |}.

Definition loginRejected : Reply :=
  {| reply_statusCode := 401; reply_sent := Some (SentText rejectedText) |}.

(** [JSON.parse] on the text above. *)
Definition parseKnown (s : string) : option JValue :=
  if String.eqb s rejectedText
  then Some (JObj [("status", JStr "error");
                   ("message", JStr "Invalid email or password")])
  else None.

(** An audit table that takes every row, and one that is out of reach. *)
Definition insertRow (row : AuditLog) (table : list AuditLog) : Result AuditLog :=
  Returned row.

Definition insertRefused (row : AuditLog) (table : list AuditLog) : Result AuditLog :=
  Thrown "connection refused".

Definition emptyWorld (s : Store) : World :=
  {| entities := s; auditLogs := []; console := [] |}.

(** The booking route as the rest of the chain behind the audit middleware:
    the body of the request is booked at the clock reading [now]. *)
Definition bookingHandler (now : Z) (newId : string)
    (req : Request) (s : Store) : Reply * Store :=
  let (res, s') := postAppointment lib now newId s (default ∅ (req_body req)) in
  ({| reply_statusCode := code res;
      reply_sent := Some (SentText (message res)) |}, s').

Definition bookingRequest (date : string) (mins : Z) : Request :=
  {| req_method := "POST";
     req_path := "/api/appointments";
     req_user := Some (mkUser userA patient);
     req_statusCode := None;
     req_body := Some (bookingBody date mins);
     req_query := Some ∅;
     req_params := Some ∅;
     req_ip := Some "203.0.113.7";
     req_userAgent := Some "curl/8.5.0";
     req_sessionID := None;
     req_requestId := None |}.

End UtcRuntime.

(** ** models/Appointment.js: the other instance methods *)

Module AppointmentTimes.

(** [Appointment.prototype.isUpcoming], with the clock reading [now]. *)
Definition isUpcoming (a : Appointment) (now : Z) : bool :=
  (appointmentDate a >? now) && Status_eqb (status a) scheduled.

(** [Appointment.prototype.isOverdue] *)
Definition isOverdue (a : Appointment) (now : Z) : bool :=
  (appointmentDate a <? now) && statusIn [scheduled; confirmed] (status a).

End AppointmentTimes.
Export AppointmentTimes.

(** ** routes/appointmentRoutes.js: PATCH /:id/cancel and PATCH /:id/confirm *)

Module Lifecycle.

(** [appointment.update({ status: 'cancelled', cancelledAt: new Date(),
    cancelledBy: req.user.id, cancellationReason })]; the instant is kept
    as its time value, a reason that is [undefined] is written as [null]. *)
Definition cancelledRow (a : Appointment) (at_ : Z) (by_ : string)
    (why : option JValue) : Appointment :=
  {| id := id a;
     patientId := patientId a;
     doctorId := doctorId a;
     appointmentDate := appointmentDate a;
     duration := duration a;
     status := cancelled;
     type := type a;
     reason := reason a;
     symptoms := symptoms a;
     notes := notes a;
     diagnosis := diagnosis a;
     prescription := prescription a;
     followUpRequired := followUpRequired a;
     followUpDate := followUpDate a;
     cost := cost a;
     paymentStatus := paymentStatus a;
     reminderSent := reminderSent a;
     reminderSentAt := reminderSentAt a;
     cancelledAt := JNum at_;
     cancelledBy := JStr by_;
     cancellationReason := column why |}.

(** [router.patch('/:id/cancel', ...)].  [now] is the clock reading inside
    [canBeCancelled], [stamp] the later one of the update; [body] is the
    object the body parser leaves in [req.body]. *)
Definition cancelAppointment (now stamp : Z) (s : Store) (u : User) (k : string)
    (body : Body) : Response * Store :=
  match findAppointmentByPk s k with
  | None => (err 404 "Appointment not found", s)
  | Some a =>
      if negb (canBeCancelled a now) then
        (err 400 "Appointment cannot be cancelled at this time", s)
      else if patientDenied s u a then (err 403 "Access denied", s)
      else if doctorDenied s u a then (err 403 "Access denied", s)
      else
        (ok 200 "Appointment cancelled successfully",
         saveAppointment s
           (cancelledRow a stamp (user_id u) (body !! "cancellationReason")))
  end.

(** [appointment.update({ status: 'confirmed' })] *)
Definition confirmedRow (a : Appointment) : Appointment :=
  {| id := id a;
     patientId := patientId a;
     doctorId := doctorId a;
     appointmentDate := appointmentDate a;
     duration := duration a;
     status := confirmed;
     type := type a;
     reason := reason a;
     symptoms := symptoms a;
     notes := notes a;
     diagnosis := diagnosis a;
     prescription := prescription a;
     followUpRequired := followUpRequired a;
     followUpDate := followUpDate a;
     cost := cost a;
     paymentStatus := paymentStatus a;
     reminderSent := reminderSent a;
     reminderSentAt := reminderSentAt a;
     cancelledAt := cancelledAt a;
     cancelledBy := cancelledBy a;
     cancellationReason := cancellationReason a |}.

(** The handler of [router.patch('/:id/confirm', authorize('doctor',
    'admin'), ...)]: what runs once [authorize] has let the request
    through.  It looks at the appointment only, not at the actor. *)
Definition confirmAppointment (s : Store) (k : string) : Response * Store :=
  match findAppointmentByPk s k with
  | None => (err 404 "Appointment not found", s)
  | Some a =>
      if negb (Status_eqb (status a) scheduled) then
        (err 400 "Only scheduled appointments can be confirmed", s)
      else
        (ok 200 "Appointment confirmed successfully",
         saveAppointment s (confirmedRow a))
  end.

End Lifecycle.
Export Lifecycle.

(** ** middleware/auditLogger.js: the specific logging functions *)

Module AuditEvents.

(** [{ ...data, category: c, severity: data.severity || fallback }] *)
Definition spreadWith (data : AuditData) (c fallback : string) : AuditData :=
  {| d_userId := d_userId data;
     d_action := d_action data;
     d_resource := d_resource data;
     d_resourceId := d_resourceId data;
     d_method := d_method data;
     d_endpoint := d_endpoint data;
     d_ipAddress := d_ipAddress data;
     d_userAgent := d_userAgent data;
     d_requestData := d_requestData data;
     d_responseData := d_responseData data;
     d_statusCode := d_statusCode data;
     d_duration := d_duration data;
     d_severity := Some (orText (d_severity data) fallback);
     d_category := Some c;
     d_description := d_description data;
     d_metadata := d_metadata data;
     d_sessionId := d_sessionId data;
     d_isSuccessful := d_isSuccessful data;
     d_errorMessage := d_errorMessage data |}.

(** [{ ...data, isSuccessful: false }] *)
Definition markFailed (data : AuditData) : AuditData :=
  {| d_userId := d_userId data;
     d_action := d_action data;
     d_resource := d_resource data;
     d_resourceId := d_resourceId data;
     d_method := d_method data;
     d_endpoint := d_endpoint data;
     d_ipAddress := d_ipAddress data;
     d_userAgent := d_userAgent data;
     d_requestData := d_requestData data;
     d_responseData := d_responseData data;
     d_statusCode := d_statusCode data;
     d_duration := d_duration data;
     d_severity := d_severity data;
     d_category := d_category data;
     d_description := d_description data;
     d_metadata := d_metadata data;
     d_sessionId := d_sessionId data;
     d_isSuccessful := Some false;
     d_errorMessage := d_errorMessage data |}.

Section Events.

Variable AuditLog_create : AuditLog -> list AuditLog -> Result AuditLog.

Definition logSecurityEvent (data : AuditData) (w : World) : option AuditLog * World :=
  logAction AuditLog_create (spreadWith data "security" "high") w.

Definition logDataAccess (data : AuditData) (w : World) : option AuditLog * World :=
  logAction AuditLog_create (spreadWith data "data_access" "low") w.

Definition logDataModification (data : AuditData) (w : World)
    : option AuditLog * World :=
  logAction AuditLog_create (spreadWith data "data_modification" "medium") w.

Definition logError (data : AuditData) (w : World) : option AuditLog * World :=
  logAction AuditLog_create (markFailed (spreadWith data "error" "high")) w.

End Events.

End AuditEvents.
Export AuditEvents.

(** ** Pages of a query *)

Module Paging.

(** [limit] and [offset] of a [findAndCountAll]: the rows from [offset] on,
    at most [limit] of them.  The store refuses a negative [limit] or
    [offset] ([None]). *)
Definition pageOf {A} (limit offset : Z) (sorted : list A) : option (list A) :=
  if (limit <? 0) || (offset <? 0) then None
  else Some (firstn (Z.to_nat limit) (skipn (Z.to_nat offset) sorted)).

(** [Math.ceil(count / limit)], for a [limit] that is not 0 (with 0 the
    quotient is no number). *)
Definition pagesOf (count limit : Z) : option Z :=
  if limit =? 0 then None else Some ((count + limit - 1) / limit).

(** A string property of [req.query] that is set: present and not empty. *)
Definition given (o : option string) : option string :=
  match o with
  | Some s => if String.eqb s "" then None else Some s
  | None => None
  end.

End Paging.
Export Paging.

(** ** models/AuditLog.js: the two security views *)

Module AuditQueries.

(** A row of [audit_logs] with the [createdAt] the store gave it. *)
Record StoredLog := mkStoredLog {
  createdAt : Z;
  entry : AuditLog
}.

Record QueryOptions := mkQueryOptions {
  o_page : option Z;
  o_limit : option Z;
  o_severity : option string;
  o_category : option string;
  o_dateFrom : option string;
  o_dateTo : option string;
  o_userId : option string;
  o_ipAddress : option string
}.

Definition severities : list string := ["low"; "medium"; "high"; "critical"].

Definition categories : list string :=
  ["authentication"; "authorization"; "data_access"; "data_modification";
   "system"; "security"; "error"].

(** [order: [['createdAt', 'DESC']]] *)
Fixpoint insertNewest (x : StoredLog) (l : list StoredLog) : list StoredLog :=
  match l with
  | [] => [x]
  | y :: rest =>
      if createdAt y <=? createdAt x then x :: l
      else y :: insertNewest x rest
  end.

Definition newestFirst (l : list StoredLog) : list StoredLog :=
  fold_right insertNewest [] l.

(** One bound of [whereClause.createdAt]: [None] when the option is not
    given, [Some None] when it is given and is no date. *)
Definition bound (L : Library) (o : option string) : option (option Z) :=
  Date_parse L <$> given o.

Definition boundReadable (b : option (option Z)) : bool :=
  match b with
  | Some None => false
  | _ => true
  end.

Definition afterBound (b : option (option Z)) (t : Z) : bool :=
  match b with
  | Some (Some lo) => lo <=? t
  | _ => true
  end.

Definition beforeBound (b : option (option Z)) (t : Z) : bool :=
  match b with
  | Some (Some hi) => t <=? hi
  | _ => true
  end.

(** A condition [column = text] that is only there when the option is
    given. *)
Definition whenGiven (o : option string) (test : string -> bool) : bool :=
  match given o with
  | Some s => test s
  | None => true
  end.

Record Page := mkPage {
  count : Z;
  rows : list StoredLog
}.

Definition findAndCountAll (keep : StoredLog -> bool) (limit offset : Z)
    (table : list StoredLog) : option Page :=
  let matching := List.filter keep table in
  match pageOf limit offset (newestFirst matching) with
  | Some page => Some (mkPage (Z.of_nat (List.length matching)) page)
  | None => None
  end.

Section Views.

Variable L : Library.

(** The store reads a text as a uuid, or refuses the query. *)
Variable readsUuid : string -> bool.

(** [whereClause] of [AuditLog.getSecurityEvents] *)
Definition securityWhere (o : QueryOptions) (r : StoredLog) : bool :=
  (match given (o_category o) with
   | Some c => String.eqb (category (entry r)) c
   | None =>
       arrayIncludes ["authentication"; "authorization"; "security"]
         (category (entry r))
   end)
  && whenGiven (o_severity o) (String.eqb (severity (entry r)))
  && whenGiven (o_userId o)
       (fun uid => bool_decide (userId (entry r) = Some uid))
  && afterBound (bound L (o_dateFrom o)) (createdAt r)
  && beforeBound (bound L (o_dateTo o)) (createdAt r).

(** [AuditLog.getSecurityEvents(options)].  [None] is the call that throws:
    the store refuses a value outside an enumeration, a text that is no
    uuid, a date that is none, a negative limit or offset. *)
Definition getSecurityEvents (o : QueryOptions) (table : list StoredLog)
    : option Page :=
  let page := default 1 (o_page o) in
  let limit := default 50 (o_limit o) in
  let offset := (page - 1) * limit in
  if whenGiven (o_category o) (arrayIncludes categories)
     && whenGiven (o_severity o) (arrayIncludes severities)
     && whenGiven (o_userId o) readsUuid
     && boundReadable (bound L (o_dateFrom o))
     && boundReadable (bound L (o_dateTo o))
  then findAndCountAll (securityWhere o) limit offset table
  else None.

(** [whereClause] of [AuditLog.getFailedLogins] *)
Definition failedLoginWhere (o : QueryOptions) (r : StoredLog) : bool :=
  String.eqb (action (entry r)) "login_attempt"
  && negb (isSuccessful (entry r))
  && String.eqb (category (entry r)) "authentication"
  && whenGiven (o_ipAddress o)
       (fun ip => bool_decide (ipAddress (entry r) = Some ip))
  && afterBound (bound L (o_dateFrom o)) (createdAt r)
  && beforeBound (bound L (o_dateTo o)) (createdAt r).

(** [AuditLog.getFailedLogins(options)] *)
Definition getFailedLogins (o : QueryOptions) (table : list StoredLog)
    : option Page :=
  let page := default 1 (o_page o) in
  let limit := default 50 (o_limit o) in
  let offset := (page - 1) * limit in
  if boundReadable (bound L (o_dateFrom o))
     && boundReadable (bound L (o_dateTo o))
  then findAndCountAll (failedLoginWhere o) limit offset table
  else None.

End Views.

Definition noOptions : QueryOptions :=
  mkQueryOptions None None None None None None None None.

End AuditQueries.
Export AuditQueries.

(** ** routes/appointmentRoutes.js: GET / *)

Module Listing.

(** [req.query] of the listing.  [page] and [limit] hold the numbers their
    texts denote. *)
Record ListQuery := mkListQuery {
  q_page : option Z;
  q_limit : option Z;
  q_patientId : option string;
  q_doctorId : option string;
  q_status : option string;
  q_type : option string;
  q_dateFrom : option string;
  q_dateTo : option string;
  q_upcoming : option string
}.

(** [whereClause.status]: one status by its text, or
    [{ [Op.in]: ['scheduled', 'confirmed'] }] *)
Inductive StatusCond :=
| StatusText (text : string)
| StatusBooked.

(** [whereClause].  A bound of [appointmentDate] is [None] when it is not
    set and [Some None] when it is set to an invalid date. *)
Record AppointmentWhere := mkAppointmentWhere {
  w_patientId : option string;
  w_doctorId : option string;
  w_status : option StatusCond;
  w_type : option string;
  w_from : option (option Z);
  w_to : option (option Z)
}.

(** The clause that comes from the query alone, before the role is looked
    at. *)
Definition queryWhere (L : Library) (now : Z) (q : ListQuery) : AppointmentWhere :=
  let upcoming :=
    match q_upcoming q with
    | Some text => String.eqb text "true"
    | None => false
    end in
  {| w_patientId := given (q_patientId q);
     w_doctorId := given (q_doctorId q);
     w_status :=
       if upcoming then Some StatusBooked else StatusText <$> given (q_status q);
     w_type := given (q_type q);
     w_from := if upcoming then Some (Some now) else bound L (q_dateFrom q);
     w_to := if upcoming then None else bound L (q_dateTo q) |}.

(** [// Role-based filtering]: the actor's own profile, when there is one,
    replaces the filter of the query. *)
Definition roleWhere (s : Store) (u : User) (w : AppointmentWhere)
    : AppointmentWhere :=
  match user_role u with
  | patient =>
      match findPatientByUser s (user_id u) with
      | Some userPatient =>
          {| w_patientId := Some (patient_id userPatient);
             w_doctorId := w_doctorId w;
             w_status := w_status w;
             w_type := w_type w;
             w_from := w_from w;
             w_to := w_to w |}
      | None => w
      end
  | doctor =>
      match findDoctorByUser s (user_id u) with
      | Some userDoctor =>
          {| w_patientId := w_patientId w;
             w_doctorId := Some (doctor_id userDoctor);
             w_status := w_status w;
             w_type := w_type w;
             w_from := w_from w;
             w_to := w_to w |}
      | None => w
      end
  | admin => w
  end.

(** The store can run the clause: the two ids read as uuids, the status and
    the type are members of their enumerations, the bounds are dates. *)
Definition clauseReadable (readsUuid : string -> bool) (w : AppointmentWhere)
    : bool :=
  match w_patientId w with Some p => readsUuid p | None => true end
  && match w_doctorId w with Some d => readsUuid d | None => true end
  && match w_status w with
     | Some (StatusText text) => bool_decide (is_Some (statusOfText text))
     | _ => true
     end
  && match w_type w with
     | Some ty => arrayIncludes appointmentTypes ty
     | None => true
     end
  && boundReadable (w_from w)
  && boundReadable (w_to w).

Definition rowMatches (w : AppointmentWhere) (a : Appointment) : bool :=
  match w_patientId w with
  | Some p => String.eqb (patientId a) p
  | None => true
  end
  && match w_doctorId w with
     | Some d => String.eqb (doctorId a) d
     | None => true
     end
  && match w_status w with
     | Some (StatusText text) =>
         match statusOfText text with
         | Some st => Status_eqb (status a) st
         | None => false
         end
     | Some StatusBooked => statusIn [scheduled; confirmed] (status a)
     | None => true
     end
  && match w_type w with
     | Some ty => String.eqb (type a) ty
     | None => true
     end
  && afterBound (w_from w) (appointmentDate a)
  && beforeBound (w_to w) (appointmentDate a).

Record ListData := mkListData {
  listed : list Appointment;
  total : Z;
  pageNo : Z;
  limitNo : Z;
  pages : option Z
}.

(** [router.get('/', ...)].  A clause the store cannot run, or a negative
    limit or offset, makes the query throw, which the [catch] answers with
    500. *)
Definition listAppointments (L : Library) (readsUuid : string -> bool)
    (now : Z) (s : Store) (u : User) (q : ListQuery)
    : Response * option ListData :=
  let page := default 1 (q_page q) in
  let limit := default 10 (q_limit q) in
  let offset := (page - 1) * limit in
  let whereClause := roleWhere s u (queryWhere L now q) in
  let matching := List.filter (rowMatches whereClause) (appointments s) in
  if clauseReadable readsUuid whereClause then
    match pageOf limit offset (orderByDate matching) with
    | Some rows_ =>
        (ok 200 "",
         Some {| listed := rows_;
                 total := Z.of_nat (List.length matching);
                 pageNo := page;
                 limitNo := limit;
                 pages := pagesOf (Z.of_nat (List.length matching)) limit |})
    | None => (err 500 "Internal server error", None)
    end
  else (err 500 "Internal server error", None).

(** The order of [order: [['appointmentDate', 'ASC']]]. *)
Definition dateLe (a b : Appointment) : Prop :=
  appointmentDate a <= appointmentDate b.

End Listing.
Export Listing.

(** ** models/Doctor.js and models/MedicalRecord.js: instance methods *)

Module ProfileMethods.

(** [a <= b] on strings: the order of JavaScript on texts of ASCII
    characters. *)
Definition textLe (a b : string) : bool := String.leb a b.

(** [Doctor.prototype.isAvailableAtTime]; [time] is the text of
    [time.toString()]. *)
Definition isAvailableAtTime (d : Doctor) (time : string) : bool :=
  match availableHours d with
  | None => false
  | Some h => textLe (hours_start h) time && textLe time (hours_end h)
  end.

(** A clock reading as the model's default writes it: two digits, a colon,
    two digits. *)
Definition digitChar (k : Z) : ascii := ascii_of_nat (Z.to_nat (48 + k)).

Definition twoDigits (n : Z) : string :=
  String (digitChar (n / 10)) (String (digitChar (n mod 10)) EmptyString).

Definition sameOrder (c d : comparison) : bool :=
  match c, d with
  | Eq, Eq | Lt, Lt | Gt, Gt => true
  | _, _ => false
  end.

Definition clock (h m : Z) : string := twoDigits h ++ ":" ++ twoDigits m.

(** [MedicalRecord.prototype.getAgeInDays]:
    [Math.ceil(Math.abs(now - this.createdAt) / (1000 * 60 * 60 * 24))], the
    quotient kept exact (the double has the same ceiling for instants less
    than 2^27 days apart). *)
Definition getAgeInDays (recordCreatedAt now : Z) : Z :=
  let diffTime := Z.abs (now - recordCreatedAt) in
  let day := 1000 * 60 * 60 * 24 in
  (diffTime + day - 1) / day.

End ProfileMethods.
Export ProfileMethods.

(** * Properties *)

(** ** Cancellation *)

Lemma statusIn_booked (st : Status) :
  statusIn [scheduled; confirmed] st = true <-> st = scheduled \/ st = confirmed.
Proof.
  destruct st; cbn; split; intros H;
    solve [ auto | discriminate | destruct H; discriminate ].
Qed.

Lemma Qgtb_hours (a : Appointment) (now : Z) :
  Qgtb (hoursUntilAppointment a now) (inject_Z 2) = true
  <-> appointmentDate a - now > 2 * 3600000.
Proof.
  unfold Qgtb, hoursUntilAppointment.
  change (1000 * 60 * 60) with 3600000.
  unfold Qle_bool, Qdiv, Qmult, Qinv, inject_Z.
  cbn [Qnum Qden].
  rewrite negb_true_iff, Z.leb_gt. lia.
Qed.

(** C5.  [canBeCancelled] holds exactly when the status is scheduled or
    confirmed and the appointment starts more than two hours (7 200 000 ms)
    after [now].  So it holds for a scheduled appointment three hours ahead,
    and fails for one that is one hour ahead and for a cancelled one, however
    far ahead. *)
Theorem canBeCancelled_iff :
  (forall (a : Appointment) (now : Z),
      canBeCancelled a now = true
      <-> (status a = scheduled \/ status a = confirmed)
          /\ appointmentDate a - now > 2 * 3600000)
  /\ (forall a now,
         canBeCancelled (rescheduled a scheduled (now + 3 * 3600000)) now = true)
  /\ (forall a now,
         canBeCancelled (rescheduled a scheduled (now + 1 * 3600000)) now = false)
  /\ (forall a now start,
         canBeCancelled (rescheduled a cancelled start) now = false).
Proof.
  assert (Hiff : forall a now,
             canBeCancelled a now = true
             <-> (status a = scheduled \/ status a = confirmed)
                 /\ appointmentDate a - now > 2 * 3600000).
  { intros a now. unfold canBeCancelled.
    rewrite andb_true_iff, statusIn_booked, Qgtb_hours. reflexivity. }
  split; [exact Hiff|].
  split; [|split].
  - intros a now. apply Hiff. cbn. split; [now left | lia].
  - intros a now. apply not_true_is_false. rewrite Hiff. cbn. lia.
  - intros a now start. apply not_true_is_false. rewrite Hiff. cbn.
    intros [[H | H] _]; discriminate.
Qed.

(** ** Reading one appointment *)

Lemma patientDenied_spec (s : Store) (u : User) (a : Appointment) :
  user_role u = patient ->
  patientDenied s u a = false <-> ownProfile s u a.
Proof.
  intros Hrole. unfold patientDenied, ownProfile. rewrite Hrole. cbn.
  destruct (findPatientByUser s (user_id u)) as [p|].
  - rewrite negb_false_iff, String.eqb_eq. split.
    + intros H. exists p. auto.
    + intros (p' & Hp & H). congruence.
  - split; [discriminate|]. intros (p' & Hp & _). discriminate.
Qed.

Lemma doctorDenied_patient (s : Store) (u : User) (a : Appointment) :
  user_role u = patient -> doctorDenied s u a = false.
Proof. intros Hrole. unfold doctorDenied. now rewrite Hrole. Qed.



(** ** Booking *)

Section BookingFacts.

Variable L : Library.

(** What the conflict query matches: an appointment of the doctor that is
    scheduled or confirmed and starts in [[start, end]] or in
    [[start - dur, start]].  The end of the stored appointment plays no
    part. *)
Lemma conflictWhere_spec (doc : string) (start dur : Z) (a : Appointment) :
  conflictWhere doc start (start + dur * 60000) dur a = true
  <-> doctorId a = doc
      /\ (status a = scheduled \/ status a = confirmed)
      /\ ((start <= appointmentDate a <= start + dur * 60000)
          \/ (start - dur * 60000 <= appointmentDate a <= start)).
Proof.
  unfold conflictWhere.
  rewrite !andb_true_iff, orb_true_iff, !andb_true_iff, String.eqb_eq,
    statusIn_booked, !Z.leb_le, Z.geb_le.
  intuition lia.
Qed.

(** A stored appointment that starts more than the requested duration
    before the requested start is never matched, however long it runs. *)
Lemma conflictWhere_early_start (doc : string) (start dur : Z) (a : Appointment) :
  0 <= dur ->
  appointmentDate a < start - dur * 60000 ->
  conflictWhere doc start (start + dur * 60000) dur a = false.
Proof.
  intros Hdur Hearly. apply not_true_is_false. rewrite conflictWhere_spec. lia.
Qed.

Lemma postAppointment_store (now : Z) (newId : string) (s : Store) (body : Body) :
  code (fst (postAppointment L now newId s body)) <> 201 ->
  snd (postAppointment L now newId s body) = s.
Proof.
  unfold postAppointment.
  repeat (match goal with
          | |- context [if ?b then _ else _] => destruct b
          | |- context [match ?o with Some _ => _ | None => _ end] => destruct o
          end; cbn; try reflexivity).
  intros H. now contradict H.
Qed.


End BookingFacts.



(** C1, at an input where the handler breaks it.  [doctorD] is booked from
    09:00 to 10:00.  A request for 09:30 to 09:45 lies inside that hour, yet
    the conflict query looks for stored starts from 09:15 to 09:45 only:
    the request is answered 201 and the overlapping row is stored. *)
Theorem overlapping_booking_created :
  let existing :=
    UtcRuntime.appointmentRow UtcRuntime.row1
      (UtcRuntime.instant "2030-01-07T09:00:00.000Z") 60 scheduled in
  let s := UtcRuntime.clinic None [existing] in
  let r := postAppointment UtcRuntime.lib (UtcRuntime.instant "2030-01-01")
             UtcRuntime.row2 s
             (UtcRuntime.bookingBody "2030-01-07T09:30:00.000Z" 15) in
  code (fst r) = 201
  /\ exists created,
      appointments (snd r) = [existing; created]
      /\ doctorId created = doctorId existing
      /\ status created = scheduled
      /\ overlaps (startOf existing) (endOf existing)
                  (startOf created) (endOf created) = true.
Proof.
  intros existing s r. split; [reflexivity|].
  eexists. split; [reflexivity|]. repeat split.
Qed.

(** C2, at an input where the handler breaks it.  [doctorD] is booked from
    10:00 to 10:30.  A request for 09:30 to 10:00 only touches that
    appointment, yet [Op.between] includes its upper end: the request is
    answered 409 and nothing is stored. *)
Theorem touching_booking_rejected :
  let existing :=
    UtcRuntime.appointmentRow UtcRuntime.row1
      (UtcRuntime.instant "2030-01-07T10:00:00.000Z") 30 scheduled in
  let s := UtcRuntime.clinic None [existing] in
  let start := UtcRuntime.instant "2030-01-07T09:30:00.000Z" in
  overlaps start (start + 30 * 60000) (startOf existing) (endOf existing) = false
  /\ postAppointment UtcRuntime.lib (UtcRuntime.instant "2030-01-01")
       UtcRuntime.row2 s
       (UtcRuntime.bookingBody "2030-01-07T09:30:00.000Z" 30)
     = (err 409 "Doctor is not available at the requested time", s).
Proof. split; reflexivity. Qed.

(** ** Availability *)

Section AvailabilityFacts.

Lemma slotConflicts_overlaps (cur slotEnd : Z) (a : Appointment) :
  slotConflicts cur slotEnd a = overlaps cur slotEnd (startOf a) (endOf a).
Proof.
  unfold slotConflicts, overlaps, startOf, endOf. now rewrite Z.gtb_ltb.
Qed.

Lemma existsb_pointwise {A} (f g : A -> bool) (l : list A) :
  (forall x, f x = g x) -> existsb f l = existsb g l.
Proof.
  intros Hfg. induction l as [|x rest IH]; cbn; [reflexivity|].
  now rewrite Hfg, IH.
Qed.

(** Sorting the fetched rows does not change what [some] finds. *)
Lemma existsb_insertByDate (f : Appointment -> bool) (a : Appointment)
    (l : list Appointment) :
  existsb f (insertByDate a l) = f a || existsb f l.
Proof.
  induction l as [|b rest IH]; cbn; [reflexivity|].
  destruct (appointmentDate a <=? appointmentDate b); cbn; [reflexivity|].
  rewrite IH. now destruct (f a), (f b).
Qed.

Lemma existsb_orderByDate (f : Appointment -> bool) (l : list Appointment) :
  existsb f (orderByDate l) = existsb f l.
Proof.
  unfold orderByDate.
  induction l as [|a rest IH]; cbn [fold_right existsb]; [reflexivity|].
  now rewrite existsb_insertByDate, IH.
Qed.

Lemma chunkFree_orderByDate (l : list Appointment) (c : Slot) :
  chunkFree (orderByDate l) c = chunkFree l c.
Proof. unfold chunkFree. now rewrite existsb_orderByDate. Qed.

Lemma chunkCount_done (ws we mins : Z) :
  0 < mins -> we <= ws -> chunkCount ws we mins = 0%nat.
Proof.
  intros Hm Hle. unfold chunkCount.
  assert ((we - ws + mins * 60000 - 1) / (mins * 60000) < 1)
    by (apply Z.div_lt_upper_bound; lia).
  lia.
Qed.

Lemma chunkCount_step (ws we mins : Z) :
  0 < mins -> ws < we ->
  chunkCount ws we mins = S (chunkCount (ws + mins * 60000) we mins).
Proof.
  intros Hm Hlt. unfold chunkCount.
  set (len := mins * 60000).
  assert (Hlen : 0 < len) by (unfold len; lia).
  replace (we - ws + len - 1) with ((we - (ws + len) + len - 1) + 1 * len) by lia.
  rewrite Z.div_add by lia.
  assert (0 <= (we - (ws + len) + len - 1) / len)
    by (apply Z.div_pos; lia).
  rewrite Z2Nat.inj_add by lia. cbn. lia.
Qed.

Lemma chunk_shift (ws mins : Z) (k : nat) :
  chunk ws mins (S k) = chunk (ws + mins * 60000) mins k.
Proof. unfold chunk. f_equal; lia. Qed.

Lemma chunk_first (ws mins : Z) :
  chunk ws mins 0 = mkSlot ws (ws + mins * 60000) mins.
Proof. unfold chunk. f_equal; lia. Qed.

Lemma referenceSlots_done (ws we mins : Z) (appts : list Appointment) :
  0 < mins -> we <= ws -> referenceSlots ws we mins appts = [].
Proof.
  intros Hm Hle. unfold referenceSlots. now rewrite chunkCount_done.
Qed.

Lemma referenceSlots_step (ws we mins : Z) (appts : list Appointment) :
  0 < mins -> ws < we ->
  referenceSlots ws we mins appts
  = (if existsb (slotConflicts ws (ws + mins * 60000)) appts
     then referenceSlots (ws + mins * 60000) we mins appts
     else mkSlot ws (ws + mins * 60000) mins
          :: referenceSlots (ws + mins * 60000) we mins appts).
Proof.
  intros Hm Hlt. unfold referenceSlots.
  rewrite (chunkCount_step ws we mins Hm Hlt).
  cbn [seq List.map List.filter].
  rewrite <- seq_shift, List.map_map.
  rewrite (List.map_ext _ _ (chunk_shift ws mins)).
  rewrite chunk_first. unfold chunkFree at 1. cbn [slot_start slot_end].
  rewrite (existsb_pointwise _ _ appts
             (slotConflicts_overlaps ws (ws + mins * 60000))).
  now destruct (existsb _ appts).
Qed.

(** The loop ends within [chunkCount] turns and leaves the partition. *)
Lemma slotLoop_reference (appts : list Appointment) (mins we : Z) :
  0 < mins ->
  forall (fuel : nat) (ws : Z),
    (chunkCount ws we mins <= fuel)%nat ->
    slotLoop fuel appts mins ws we = Some (referenceSlots ws we mins appts).
Proof.
  intros Hm fuel. induction fuel as [|fuel IH]; intros ws Hfuel.
  - cbn. destruct (Z.ltb_spec ws we) as [Hlt|Hge].
    + rewrite (chunkCount_step ws we mins Hm Hlt) in Hfuel. lia.
    + now rewrite referenceSlots_done.
  - cbn. destruct (Z.ltb_spec ws we) as [Hlt|Hge].
    + rewrite (chunkCount_step ws we mins Hm Hlt) in Hfuel.
      rewrite IH by lia.
      now rewrite (referenceSlots_step ws we mins appts Hm Hlt).
    + now rewrite referenceSlots_done.
Qed.

Lemma referenceSlots_In (ws we mins : Z) (appts : list Appointment) (c : Slot) :
  In c (referenceSlots ws we mins appts)
  <-> (exists k, (k < chunkCount ws we mins)%nat /\ c = chunk ws mins k)
      /\ forall a, In a appts ->
                   overlaps (slot_start c) (slot_end c) (startOf a) (endOf a)
                   = false.
Proof.
  unfold referenceSlots. rewrite List.filter_In, List.in_map_iff.
  unfold chunkFree. rewrite negb_true_iff.
  split.
  - intros [(k & Hk & Hin) Hfree]. split.
    + exists k. apply List.in_seq in Hin. split; [lia | congruence].
    + intros a Ha.
      destruct (overlaps _ _ (startOf a) (endOf a)) eqn:Hov; [|reflexivity].
      assert (existsb (fun a => overlaps (slot_start c) (slot_end c)
                                  (startOf a) (endOf a)) appts = true)
        by (apply List.existsb_exists; eauto).
      congruence.
  - intros [(k & Hk & Hc) Hfree]. split.
    + exists k. split; [congruence | apply List.in_seq; lia].
    + apply not_true_is_false. intros Hex.
      apply List.existsb_exists in Hex as (a & Ha & Hov).
      rewrite (Hfree a Ha) in Hov. discriminate.
Qed.

Lemma referenceSlots_orderByDate (ws we mins : Z) (l : list Appointment) :
  referenceSlots ws we mins (orderByDate l) = referenceSlots ws we mins l.
Proof.
  unfold referenceSlots. apply List.filter_ext. intros c.
  apply chunkFree_orderByDate.
Qed.

Lemma dayWhere_spec (doc : string) (startOfDay endOfDay : Z) (a : Appointment) :
  dayWhere doc startOfDay endOfDay a = true
  <-> doctorId a = doc
      /\ startOfDay <= appointmentDate a <= endOfDay
      /\ (status a = scheduled \/ status a = confirmed).
Proof.
  unfold dayWhere.
  rewrite !andb_true_iff, String.eqb_eq, statusIn_booked, !Z.leb_le.
  tauto.
Qed.

End AvailabilityFacts.




(** ** Updating an appointment *)

Section UpdateFacts.

Lemma updateData_other (r : Role) (body : Body) (k : string) :
  arrayIncludes (allowedFields r) k = false ->
  updateData r body !! k = None.
Proof.
  intros Hk. unfold updateData. apply map_lookup_filter_None. right.
  intros v _ Hin. change (arrayIncludes (allowedFields r) k = true) in Hin.
  congruence.
Qed.

(** A column that [values] does not name keeps its value. *)
Lemma update_frame (a a' : Appointment) (values : Body) (c : Column) :
  update a values = Some a' ->
  values !! columnName c = None ->
  agreeOn c a a'.
Proof.
  unfold update. intros Hup Hc.
  destruct (setEnum (status a) statusOfValue (values !! "status"))
    as [st|] eqn:Hst; [|discriminate].
  destruct (setEnum (paymentStatus a) paymentOfValue (values !! "paymentStatus"))
    as [pay|] eqn:Hpay; [|discriminate].
  inversion Hup; subst a'; clear Hup.
  destruct c; cbn in Hc |- *; try reflexivity;
    try (rewrite Hc; reflexivity);
    rewrite Hc in *; cbn in *; congruence.
Qed.

Lemma update_id (a a' : Appointment) (values : Body) :
  update a values = Some a' -> id a' = id a.
Proof.
  unfold update. intros Hup.
  destruct (setEnum (status a) _ _); [|discriminate].
  destruct (setEnum (paymentStatus a) _ _); [|discriminate].
  now inversion Hup.
Qed.

Lemma find_saveRow_same (a a' : Appointment) (k : string) (l : list Appointment) :
  find (fun r => String.eqb (id r) k) l = Some a ->
  id a' = k ->
  find (fun r => String.eqb (id r) k) (saveRow a' l) = Some a'.
Proof.
  intros Hfind Hid. induction l as [|r rest IH]; [discriminate|].
  cbn in Hfind |- *. rewrite Hid.
  destruct (String.eqb (id r) k) eqn:Hr.
  - cbn. rewrite Hid. now rewrite String.eqb_refl.
  - cbn. rewrite Hr. auto.
Qed.

Lemma find_saveRow_other (a' : Appointment) (k k' : string) (l : list Appointment) :
  id a' = k -> k' <> k ->
  find (fun r => String.eqb (id r) k') (saveRow a' l)
  = find (fun r => String.eqb (id r) k') l.
Proof.
  intros Hid Hne. induction l as [|r rest IH]; [reflexivity|].
  cbn. rewrite Hid.
  destruct (String.eqb (id r) k) eqn:Hr.
  - apply String.eqb_eq in Hr. cbn. rewrite Hid, Hr.
    assert (Hk : String.eqb k k' = false)
      by (apply String.eqb_neq; congruence).
    now rewrite Hk.
  - cbn. now rewrite IH.
Qed.

Lemma findAppointmentByPk_id (s : Store) (k : string) (a : Appointment) :
  findAppointmentByPk s k = Some a -> id a = k.
Proof.
  intros Hfind. apply List.find_some in Hfind as [_ Hid].
  now apply String.eqb_eq.
Qed.

End UpdateFacts.



(** ** Audit trail *)

Section SanitizeFacts.

Variable JSON_parse : string -> option JValue.

Lemma redactField_lookup (b : Body) (f k : string) :
  redactField b f !! k
  = if String.eqb k f && truthyProp (b !! k) then Some REDACTED else b !! k.
Proof.
  unfold redactField. destruct (String.eqb_spec k f) as [->|Hne]; cbn.
  - destruct (truthyProp (b !! f)); [apply lookup_insert_eq | reflexivity].
  - destruct (truthyProp (b !! f)); [|reflexivity].
    apply lookup_insert_ne. congruence.
Qed.

(** What the loop over the sensitive names leaves under each key. *)
Lemma redact_lookup (fields : list string) (b : Body) (k : string) :
  foldl redactField b fields !! k
  = if arrayIncludes fields k && truthyProp (b !! k)
    then Some REDACTED else b !! k.
Proof.
  revert b. induction fields as [|f rest IH]; intros b; [reflexivity|].
  cbn [foldl]. rewrite IH, redactField_lookup.
  unfold arrayIncludes. cbn [existsb].
  destruct (String.eqb k f), (existsb (String.eqb k) rest),
    (truthyProp (b !! k)) eqn:Hb; cbn; try rewrite Hb; reflexivity.
Qed.

Lemma dataCount_nonneg (o : option JValue) : 0 <= dataCount o.
Proof.
  destruct o as [v|]; cbn; [|lia].
  destruct v; cbn; try lia; repeat (match goal with
                                    | |- context [if ?b then _ else _] => destruct b
                                    end); lia.
Qed.

(** The three shapes of a stored [responseData]. *)
Lemma sanitizeResponseData_shape (data : option Sent) :
  sanitizeResponseData JSON_parse data = JNull
  \/ sanitizeResponseData JSON_parse data = parseFailure
  \/ exists p st msg dat,
      getProp p "status" = Some st
      /\ getProp p "message" = Some msg
      /\ getProp p "data" = Some dat
      /\ sanitizeResponseData JSON_parse data
         = JObj [("status", orElse st (JStr "unknown"));
                 ("message", orElse msg JNull);
                 ("dataCount", JNum (dataCount dat))].
Proof.
  unfold sanitizeResponseData.
  destruct data as [d|]; [|now left].
  destruct (sentTruthy d); cbn [negb]; [|now left].
  destruct (match d with SentText s => JSON_parse s | SentValue v => Some v end)
    as [p|]; [|right; now left].
  destruct (getProp p "status") as [st|] eqn:Hst; [|right; now left].
  destruct (getProp p "message") as [msg|] eqn:Hmsg; [|right; now left].
  destruct (getProp p "data") as [dat|] eqn:Hdat; [|right; now left].
  right. right. exists p, st, msg, dat. auto.
Qed.

End SanitizeFacts.



Section RecorderFacts.

Variable JSON_parse : string -> option JValue.
Variable AuditLog_create : AuditLog -> list AuditLog -> Result AuditLog.

Lemma logAction_entities (data : AuditData) (w : World) :
  entities (snd (logAction AuditLog_create data w)) = entities w.
Proof. unfold logAction. now destruct (AuditLog_create _ _). Qed.

Lemma logAction_thrown (data : AuditData) (w : World) (e : string) :
  AuditLog_create (rowOf data) (auditLogs w) = Thrown e ->
  logAction AuditLog_create data w
  = (None,
     {| entities := entities w;
        auditLogs := auditLogs w;
        console := console w ++ ["Failed to create audit log: " ++ e] |}).
Proof. unfold logAction. now intros ->. Qed.

Lemma logAction_returned (data : AuditData) (w : World) (log : AuditLog) :
  AuditLog_create (rowOf data) (auditLogs w) = Returned log ->
  logAction AuditLog_create data w
  = (Some log,
     {| entities := entities w;
        auditLogs := auditLogs w ++ [log];
        console := console w |}).
Proof. unfold logAction. now intros ->. Qed.

End RecorderFacts.

(** C9.  Behind the audit middleware the client gets the answer of the rest
    of the chain and the entity tables are left as that chain left them,
    whatever the insert into the audit table does: the entry is built and
    written after the answer is complete.  When the insert throws, the
    error goes to the console, the audit table stays as it was, and
    [logAction] returns null; when it returns, the row is appended. *)
Theorem audit_failure_invisible
    (JSON_parse : string -> option JValue)
    (AuditLog_create : AuditLog -> list AuditLog -> Result AuditLog)
    (next : Request -> Store -> Reply * Store)
    (startTime finishTime : Z) (req : Request) (w : World) :
  let out := auditLogger JSON_parse AuditLog_create next startTime finishTime req w in
  let reply := fst (next req (entities w)) in
  let entry := rowOf (finishData JSON_parse req reply startTime finishTime) in
  fst out = reply
  /\ entities (snd out) = snd (next req (entities w))
  /\ (forall e,
         AuditLog_create entry (auditLogs w) = Thrown e ->
         auditLogs (snd out) = auditLogs w
         /\ console (snd out)
            = (console w ++ [("Failed to create audit log: " ++ e)%string])%list
         /\ fst (logAction AuditLog_create
                   (finishData JSON_parse req reply startTime finishTime) w)
            = None)
  /\ (forall log,
         AuditLog_create entry (auditLogs w) = Returned log ->
         auditLogs (snd out) = (auditLogs w ++ [log])%list
         /\ console (snd out) = console w).
Proof.
  unfold auditLogger, onFinish.
  destruct (next req (entities w)) as [reply entities'] eqn:Hnext.
  cbn [fst snd].
  split; [reflexivity|]. split; [apply logAction_entities|].
  split.
  - intros e He.
    rewrite (logAction_thrown AuditLog_create _ _ e) by exact He.
    rewrite (logAction_thrown AuditLog_create _ w e) by exact He.
    cbn. auto.
  - intros log Hlog.
    rewrite (logAction_returned AuditLog_create _ _ log) by exact Hlog.
    cbn. auto.
Qed.

(** A booking answered 201 while the audit table is out of reach: the
    client sees the 201, the appointment is stored, the error is on the
    console and no audit row is written. *)
Lemma audit_failure_invisible_witness :
  let s := UtcRuntime.clinic None [] in
  let req := UtcRuntime.bookingRequest "2030-01-07T09:00:00.000Z" 30 in
  let next := UtcRuntime.bookingHandler (UtcRuntime.instant "2030-01-01")
                UtcRuntime.row1 in
  let out := auditLogger UtcRuntime.parseKnown UtcRuntime.insertRefused next
               0 5 req (UtcRuntime.emptyWorld s) in
  reply_statusCode (fst out) = 201
  /\ List.length (appointments (entities (snd out))) = 1%nat
  /\ auditLogs (snd out) = []
  /\ console (snd out) = ["Failed to create audit log: connection refused"].
Proof.
  intros s req next out.
  destruct (audit_failure_invisible UtcRuntime.parseKnown
              UtcRuntime.insertRefused next 0 5 req (UtcRuntime.emptyWorld s))
    as (Hreply & Hentities & Hthrown & _).
  destruct (Hthrown "connection refused" eq_refl) as (Hlogs & Hconsole & _).
  fold out in Hreply, Hentities, Hlogs, Hconsole.
  rewrite Hreply, Hentities, Hlogs, Hconsole.
  repeat split.
Defined.

(** Without a number in [req.statusCode] the two status tests of
    [getSeverityFromRequest] are false: a login request is given the
    severity low, unless its path also names the password change. *)
Lemma login_severity_low (req : Request) :
  req_statusCode req = None ->
  includes (req_path req) "/auth/login" = true ->
  includes (req_path req) "/auth/change-password" = false ->
  getSeverityFromRequest req (getActionFromRequest req) = "low".
Proof.
  intros Hstatus Hlogin Hchange.
  unfold getSeverityFromRequest, getActionFromRequest.
  now rewrite Hstatus, Hlogin, Hchange.
Qed.

(** C7, at an input where the middleware breaks it.  The severity is
    derived when the request comes in, from the [statusCode] of the request
    object, which holds no number: the test for a failed login is false and
    the login that is answered 401 is entered as a login attempt of
    category authentication that failed, with severity low.  The entry
    that [auditLoginAttempt] writes for a failed login has severity
    medium. *)
Theorem failed_login_severity :
  let entry := rowOf (finishData UtcRuntime.parseKnown UtcRuntime.loginRequest
                        UtcRuntime.loginRejected 0 5) in
  let direct := fst (auditLoginAttempt UtcRuntime.insertRow
                       UtcRuntime.loginRequest false None
                       (UtcRuntime.emptyWorld (UtcRuntime.clinic None []))) in
  includes (req_path UtcRuntime.loginRequest) "/auth/login" = true
  /\ reply_statusCode UtcRuntime.loginRejected >= 400
  /\ action entry = "login_attempt"
  /\ category entry = "authentication"
  /\ isSuccessful entry = false
  /\ severity entry = "low"
  /\ exists row,
      direct = Some row
      /\ action row = "login_attempt"
      /\ category row = "authentication"
      /\ isSuccessful row = false
      /\ severity row = "medium".
Proof.
  intros entry direct.
  split; [reflexivity|]. split; [cbn; lia|].
  repeat (split; [reflexivity|]).
  eexists. split; [reflexivity|]. repeat split.
Qed.

(** ** Cancelling and confirming *)

Section LifecycleFacts.

Lemma saveRow_In (a' r : Appointment) (l : list Appointment) :
  In r (saveRow a' l) -> r = a' \/ In r l.
Proof.
  induction l as [|x rest IH]; cbn; [tauto|].
  destruct (String.eqb (id x) (id a')); cbn; intuition.
Qed.

(** Writing back a row that a test cannot tell from the row it replaces
    leaves the answer of [some] over the table as it was. *)
Lemma existsb_saveRow (P : Appointment -> bool) (a a' : Appointment)
    (k : string) (l : list Appointment) :
  find (fun r => String.eqb (id r) k) l = Some a ->
  id a' = k ->
  P a' = P a ->
  existsb P (saveRow a' l) = existsb P l.
Proof.
  intros Hfind Hid HP. induction l as [|x rest IH]; [discriminate|].
  cbn in Hfind |- *. rewrite Hid.
  destruct (String.eqb (id x) k) eqn:Hx.
  - inversion Hfind; subst x. cbn. now rewrite HP.
  - cbn. now rewrite IH.
Qed.

Lemma find_is_Some_existsb {A} (P : A -> bool) (l : list A) :
  is_Some (find P l) <-> existsb P l = true.
Proof.
  induction l as [|x rest IH]; cbn.
  - split; [intros [y Hy]; discriminate | discriminate].
  - destruct (P x); cbn; [split; eauto|exact IH].
Qed.

Lemma cancelled_not_booked (a : Appointment) (at_ : Z) (by_ : string)
    (why : option JValue) :
  statusIn [scheduled; confirmed] (status (cancelledRow a at_ by_ why)) = false.
Proof. reflexivity. Qed.

Lemma cancelAppointment_ok (now stamp : Z) (s : Store) (u : User) (k : string)
    (body : Body) :
  code (fst (cancelAppointment now stamp s u k body)) = 200 ->
  exists a,
    findAppointmentByPk s k = Some a
    /\ canBeCancelled a now = true
    /\ patientDenied s u a = false
    /\ doctorDenied s u a = false
    /\ snd (cancelAppointment now stamp s u k body)
       = saveAppointment s
           (cancelledRow a stamp (user_id u) (body !! "cancellationReason")).
Proof.
  unfold cancelAppointment.
  destruct (findAppointmentByPk s k) as [a|]; [|cbn; discriminate].
  destruct (canBeCancelled a now) eqn:Hcan; cbn [negb]; [|cbn; discriminate].
  destruct (patientDenied s u a) eqn:Hp; [cbn; discriminate|].
  destruct (doctorDenied s u a) eqn:Hd; [cbn; discriminate|].
  intros _. exists a. auto.
Qed.

(** What the conflict query and the day query can find after a row has been
    replaced by one that is not booked was there before. *)
Lemma booked_after_unbooking (a' : Appointment) (l : list Appointment)
    (P : Appointment -> bool) :
  P a' = false ->
  existsb P (saveRow a' l) = true -> existsb P l = true.
Proof.
  intros Ha' Hex. apply List.existsb_exists in Hex as (r & Hr & HP).
  apply saveRow_In in Hr as [-> | Hr]; [congruence|].
  apply List.existsb_exists. eauto.
Qed.

(** With fewer conflicts the loop lists at least the same slots. *)
Lemma slotLoop_monotone (appts appts' : list Appointment) (mins we : Z) :
  (forall cur slotEnd,
      existsb (slotConflicts cur slotEnd) appts' = true ->
      existsb (slotConflicts cur slotEnd) appts = true) ->
  forall (fuel fuel' : nat) (ws : Z) (l l' : list Slot),
    slotLoop fuel appts mins ws we = Some l ->
    slotLoop fuel' appts' mins ws we = Some l' ->
    forall c, In c l -> In c l'.
Proof.
  intros Hsub fuel.
  induction fuel as [|fuel IH]; intros fuel' ws l l' Hl Hl' c Hc.
  - cbn in Hl. destruct (ws <? we); [discriminate|].
    inversion Hl; subst l. contradiction.
  - cbn in Hl. destruct fuel' as [|fuel'].
    + cbn in Hl'. destruct (ws <? we); [discriminate|].
      inversion Hl; subst l. contradiction.
    + cbn in Hl'. destruct (ws <? we); [|inversion Hl; subst l; contradiction].
      destruct (slotLoop fuel appts mins (ws + mins * 60000) we)
        as [later|] eqn:Hlater; [|discriminate].
      destruct (slotLoop fuel' appts' mins (ws + mins * 60000) we)
        as [later'|] eqn:Hlater'; [|discriminate].
      pose proof (IH fuel' _ later later' Hlater Hlater') as Hrec.
      inversion Hl; subst l. inversion Hl'; subst l'. clear Hl Hl'.
      destruct (existsb (slotConflicts ws (ws + mins * 60000)) appts) eqn:Hc0.
      * destruct (existsb _ appts'); [auto | right; auto].
      * destruct (existsb (slotConflicts ws (ws + mins * 60000)) appts')
          eqn:Hc1; [apply Hsub in Hc1; congruence|].
        destruct Hc as [<- | Hc]; [now left | right; auto].
Qed.

End LifecycleFacts.

Section LifecycleTheorems.

Lemma existsb_filter {A} (P Q : A -> bool) (l : list A) :
  existsb P (List.filter Q l) = existsb (fun x => Q x && P x) l.
Proof.
  induction l as [|x rest IH]; cbn; [reflexivity|].
  destruct (Q x); cbn; now rewrite IH.
Qed.

Lemma slotLoop_ext (appts appts' : list Appointment) (mins we : Z) :
  (forall cur slotEnd,
      existsb (slotConflicts cur slotEnd) appts'
      = existsb (slotConflicts cur slotEnd) appts) ->
  forall (fuel : nat) (ws : Z),
    slotLoop fuel appts' mins ws we = slotLoop fuel appts mins ws we.
Proof.
  intros Hsame fuel. induction fuel as [|fuel IH]; intros ws; cbn;
    [reflexivity|].
  now rewrite IH, Hsame.
Qed.

(** When the booking route answers 409. *)
Lemma postAppointment_409 (L : Library) (now : Z) (newId : string) (s : Store)
    (body : Body) :
  code (fst (postAppointment L now newId s body)) = 409
  <-> appointmentValidation L body = true
      /\ is_Some (findPatientByPk s (textOf (body !! "patientId")))
      /\ is_Some (findDoctorByPk s (textOf (body !! "doctorId")))
      /\ exists start,
          Date_parse L (textOf (body !! "appointmentDate")) = Some start
          /\ existsb
               (conflictWhere (textOf (body !! "doctorId")) start
                  (start + default 30 (body !! "duration" ≫= intOf) * 60000)
                  (default 30 (body !! "duration" ≫= intOf)))
               (appointments s) = true.
Proof.
  unfold postAppointment, conflictingAppointment.
  destruct (appointmentValidation L body); cbn [negb];
    [|cbn; split; [discriminate | intros (H & _); discriminate]].
  destruct (findPatientByPk s _) as [p|];
    [|cbn; split; [discriminate | intros (_ & [x Hx] & _); discriminate]].
  destruct (findDoctorByPk s _) as [d|];
    [|cbn; split; [discriminate | intros (_ & _ & [x Hx] & _); discriminate]].
  destruct (Date_parse L _) as [start|];
    [|cbn; split;
      [discriminate | intros (_ & _ & _ & x & Hx & _); discriminate]].
  destruct (find _ (appointments s)) as [c|] eqn:Hc; cbn.
  - split; [|reflexivity]. intros _. repeat split; eauto.
    exists start. split; [reflexivity|].
    apply find_is_Some_existsb. rewrite Hc. eauto.
  - destruct (start <=? now); cbn;
      (split; [discriminate|]);
      intros (_ & _ & _ & start' & Hs & Hex); inversion Hs; subst start';
      apply find_is_Some_existsb in Hex as [c' Hc']; rewrite Hc in Hc';
      discriminate.
Qed.

End LifecycleTheorems.



(** X2.  A cancellation that went through cannot be repeated: after a 200,
    every further cancel request for the same appointment, by whatever
    actor and at whatever time, is answered 400 and changes nothing. *)
Theorem cancel_not_repeatable (now stamp : Z) (s : Store) (u : User)
    (k : string) (body : Body) :
  code (fst (cancelAppointment now stamp s u k body)) = 200 ->
  forall (now' stamp' : Z) (u' : User) (body' : Body),
    cancelAppointment now' stamp'
      (snd (cancelAppointment now stamp s u k body)) u' k body'
    = (err 400 "Appointment cannot be cancelled at this time",
       snd (cancelAppointment now stamp s u k body)).
Proof.
  intros Hok now' stamp' u' body'.
  destruct (cancelAppointment_ok _ _ _ _ _ _ Hok)
    as (a & Hfind & _ & _ & _ & Hstore).
  rewrite Hstore.
  pose proof (findAppointmentByPk_id _ _ _ Hfind) as Hk.
  assert (Hrow :
            findAppointmentByPk
              (saveAppointment s
                 (cancelledRow a stamp (user_id u) (body !! "cancellationReason")))
              k
            = Some (cancelledRow a stamp (user_id u)
                      (body !! "cancellationReason"))).
  { unfold findAppointmentByPk, saveAppointment. cbn [appointments].
    now apply (find_saveRow_same a). }
  unfold cancelAppointment at 1. rewrite Hrow. reflexivity.
Qed.

Lemma cancel_not_repeatable_witness :
  let a := UtcRuntime.appointmentRow UtcRuntime.row1
             (UtcRuntime.instant "2030-01-07T09:00:00.000Z") 30 scheduled in
  let s := UtcRuntime.clinic None [a] in
  let first := cancelAppointment (UtcRuntime.instant "2030-01-01")
                 (UtcRuntime.instant "2030-01-01") s
                 (mkUser UtcRuntime.userA patient) UtcRuntime.row1 ∅ in
  cancelAppointment (UtcRuntime.instant "2030-01-02")
    (UtcRuntime.instant "2030-01-02") (snd first)
    (mkUser UtcRuntime.userD doctor) UtcRuntime.row1 ∅
  = (err 400 "Appointment cannot be cancelled at this time", snd first).
Proof.
  intros a s first.
  apply (cancel_not_repeatable (UtcRuntime.instant "2030-01-01")
           (UtcRuntime.instant "2030-01-01") s
           (mkUser UtcRuntime.userA patient) UtcRuntime.row1 ∅ eq_refl).
Defined.

Section CancelFrees.

Lemma dayWhere_cancelled (doc : string) (startOfDay endOfDay : Z)
    (a : Appointment) (at_ : Z) (by_ : string) (why : option JValue) :
  dayWhere doc startOfDay endOfDay (cancelledRow a at_ by_ why) = false.
Proof. unfold dayWhere. cbn. now rewrite andb_false_r. Qed.

Lemma conflictWhere_cancelled (doc : string) (start stop dur : Z)
    (a : Appointment) (at_ : Z) (by_ : string) (why : option JValue) :
  conflictWhere doc start stop dur (cancelledRow a at_ by_ why) = false.
Proof. unfold conflictWhere. cbn. now rewrite andb_false_r. Qed.

End CancelFrees.

(** X3.  A cancellation only frees time.  After a cancel answered 200, a
    booking request that is answered 409 would have been answered 409
    before the cancel too, and every slot that the availability route
    listed before the cancel is still listed after it. *)
Theorem cancel_frees_time (now stamp : Z) (s : Store) (u : User) (k : string)
    (body : Body) :
  code (fst (cancelAppointment now stamp s u k body)) = 200 ->
  let s' := snd (cancelAppointment now stamp s u k body) in
  (forall (L : Library) (now' : Z) (newId : string) (request : Body),
      code (fst (postAppointment L now' newId s' request)) = 409 ->
      code (fst (postAppointment L now' newId s request)) = 409)
  /\ (forall (L : Library) (fuel fuel' : nat) (now' : Z) (doc : string)
             (date : option string) (before after : AvailabilityData),
         getAvailability L fuel now' s doc date = Some (ok 200 "", Some before) ->
         getAvailability L fuel' now' s' doc date = Some (ok 200 "", Some after) ->
         forall c, In c (availableSlotsOut before) ->
                   In c (availableSlotsOut after)).
Proof.
  intros Hok s'.
  destruct (cancelAppointment_ok _ _ _ _ _ _ Hok)
    as (a & Hfind & _ & _ & _ & Hstore).
  unfold s'. rewrite Hstore. clear s' Hstore. split.
  - intros L now' newId request H409.
    apply postAppointment_409 in H409 as (Hval & Hp & Hd & start & Hdate & Hex).
    apply postAppointment_409. repeat split; try assumption.
    exists start. split; [exact Hdate|].
    cbn [appointments saveAppointment] in Hex.
    eapply booked_after_unbooking; [|exact Hex].
    apply conflictWhere_cancelled.
  - intros L fuel fuel' now' doc date before after Hbefore Hafter c Hc.
    unfold getAvailability in Hbefore, Hafter.
    change (findDoctorByPk (saveAppointment s _) doc)
      with (findDoctorByPk s doc) in Hafter.
    destruct (findDoctorByPk s doc) as [d|]; [|discriminate].
    destruct (targetDate L now' date) as [t|]; [|discriminate].
    unfold availableSlots in Hbefore, Hafter.
    destruct (window L d (setHours L t 0 0 0 0)) as [[ws we]|].
    + destruct (slotLoop fuel _ _ ws we) as [l|] eqn:Hl; [|discriminate].
      destruct (slotLoop fuel' _ _ ws we) as [l'|] eqn:Hl'; [|discriminate].
      inversion Hbefore; subst before. inversion Hafter; subst after.
      cbn [availableSlotsOut] in Hc |- *.
      eapply (slotLoop_monotone _ _ _ _ _ _ _ _ _ _ Hl Hl' c Hc).
    + inversion Hbefore; subst before. inversion Hafter; subst after.
      exact Hc.
  Unshelve.
  intros cur slotEnd. unfold dayAppointments.
  rewrite !existsb_orderByDate, !existsb_filter.
  cbn [appointments saveAppointment].
  apply booked_after_unbooking.
  now rewrite dayWhere_cancelled.
Qed.

Lemma cancel_frees_time_witness :
  let a1 := UtcRuntime.appointmentRow UtcRuntime.row1
              (UtcRuntime.instant "2030-01-07T10:00:00.000Z") 30 scheduled in
  let a2 := UtcRuntime.appointmentRow UtcRuntime.row2
              (UtcRuntime.instant "2030-01-07T11:00:00.000Z") 30 scheduled in
  let s := UtcRuntime.clinic None [a1; a2] in
  code (fst (postAppointment UtcRuntime.lib (UtcRuntime.instant "2030-01-02")
               UtcRuntime.row2 s
               (UtcRuntime.bookingBody "2030-01-07T11:00:00.000Z" 30)))
  = 409.
Proof.
  intros a1 a2 s.
  apply (proj1 (cancel_frees_time (UtcRuntime.instant "2030-01-01")
                  (UtcRuntime.instant "2030-01-01") s
                  (mkUser UtcRuntime.userA patient) UtcRuntime.row1 ∅ eq_refl)).
  reflexivity.
Defined.

(** X4.  Confirming an appointment that exists: a scheduled one becomes
    confirmed with 200, every other column and every other row as before;
    one in any other status is answered 400 and nothing changes.  After a
    200 a second confirm of the same appointment is answered 400. *)
Theorem confirm_outcome (s : Store) (k : string) (a : Appointment) :
  findAppointmentByPk s k = Some a ->
  (status a <> scheduled ->
   confirmAppointment s k
   = (err 400 "Only scheduled appointments can be confirmed", s))
  /\ (status a = scheduled ->
      let s' := snd (confirmAppointment s k) in
      code (fst (confirmAppointment s k)) = 200
      /\ (exists a',
             findAppointmentByPk s' k = Some a'
             /\ status a' = confirmed
             /\ forall c, c <> c_status -> agreeOn c a a')
      /\ (forall k', k' <> k ->
             findAppointmentByPk s' k' = findAppointmentByPk s k')
      /\ confirmAppointment s' k
         = (err 400 "Only scheduled appointments can be confirmed", s')).
Proof.
  intros Hfind.
  pose proof (findAppointmentByPk_id _ _ _ Hfind) as Hk.
  split.
  - intros Hst. unfold confirmAppointment. rewrite Hfind.
    destruct (status a); try reflexivity. congruence.
  - intros Hst.
    assert (Hrun : confirmAppointment s k
                   = (ok 200 "Appointment confirmed successfully",
                      saveAppointment s (confirmedRow a))).
    { unfold confirmAppointment. now rewrite Hfind, Hst. }
    cbv zeta. rewrite Hrun. cbn [fst snd].
    assert (Hrow : findAppointmentByPk (saveAppointment s (confirmedRow a)) k
                   = Some (confirmedRow a)).
    { unfold findAppointmentByPk, saveAppointment. cbn [appointments].
      now apply (find_saveRow_same a). }
    split; [reflexivity|]. split; [|split].
    + exists (confirmedRow a). split; [exact Hrow|]. split; [reflexivity|].
      intros c Hc. destruct c; cbn; try reflexivity. congruence.
    + intros k' Hne. unfold findAppointmentByPk, saveAppointment.
      cbn [appointments]. now apply (find_saveRow_other _ k k').
    + unfold confirmAppointment. now rewrite Hrow.
Qed.

Lemma confirm_outcome_witness :
  let a := UtcRuntime.appointmentRow UtcRuntime.row1
             (UtcRuntime.instant "2030-01-07T10:00:00.000Z") 30 scheduled in
  let s := UtcRuntime.clinic None [a] in
  code (fst (confirmAppointment s UtcRuntime.row1)) = 200
  /\ confirmAppointment (snd (confirmAppointment s UtcRuntime.row1))
       UtcRuntime.row1
     = (err 400 "Only scheduled appointments can be confirmed",
        snd (confirmAppointment s UtcRuntime.row1)).
Proof.
  intros a s.
  destruct (proj2 (confirm_outcome s UtcRuntime.row1 a eq_refl) eq_refl)
    as (Hcode & _ & _ & Hagain).
  split; assumption.
Defined.

(** X5.  Confirming changes nothing for scheduling: after a confirm
    answered 200 every booking request gets the answer code it would have
    got before, and the availability route gives the same answer code and
    lists the same slots, for every doctor and day. *)
Theorem confirm_keeps_schedule (s : Store) (k : string) :
  code (fst (confirmAppointment s k)) = 200 ->
  let s' := snd (confirmAppointment s k) in
  (forall (L : Library) (now : Z) (newId : string) (request : Body),
      code (fst (postAppointment L now newId s' request))
      = code (fst (postAppointment L now newId s request)))
  /\ (forall (L : Library) (fuel : nat) (now : Z) (doc : string)
             (date : option string),
         fst <$> getAvailability L fuel now s' doc date
         = fst <$> getAvailability L fuel now s doc date
         /\ (availableSlotsOut <$> (getAvailability L fuel now s' doc date ≫= snd))
            = (availableSlotsOut <$> (getAvailability L fuel now s doc date ≫= snd))).
Proof.
  unfold confirmAppointment.
  destruct (findAppointmentByPk s k) as [a|] eqn:Hfind; [|cbn; discriminate].
  destruct (Status_eqb (status a) scheduled) eqn:Hst; cbn [negb];
    [|cbn; discriminate].
  intros _. cbn [snd].
  assert (Hsched : status a = scheduled) by (destruct (status a); now try discriminate).
  pose proof (findAppointmentByPk_id _ _ _ Hfind) as Hk.
  assert (Hsame : forall P : Appointment -> bool,
             P (confirmedRow a) = P a ->
             existsb P (appointments (saveAppointment s (confirmedRow a)))
             = existsb P (appointments s)).
  { intros P HP. cbn [appointments saveAppointment].
    now apply (existsb_saveRow P a (confirmedRow a) k). }
  split.
  - intros L now newId request. unfold postAppointment, conflictingAppointment.
    change (findPatientByPk (saveAppointment s _)) with (findPatientByPk s).
    change (findDoctorByPk (saveAppointment s _)) with (findDoctorByPk s).
    destruct (negb (appointmentValidation L request)); [reflexivity|].
    destruct (findPatientByPk s _); [|reflexivity].
    destruct (findDoctorByPk s _); [|reflexivity].
    destruct (Date_parse L _) as [start|]; [|reflexivity].
    set (P := conflictWhere _ _ _ _).
    assert (HP : existsb P (appointments (saveAppointment s (confirmedRow a)))
                 = existsb P (appointments s)).
    { apply Hsame. unfold P, conflictWhere. cbn. now rewrite Hsched. }
    destruct (find P (appointments (saveAppointment s (confirmedRow a))))
      as [c|] eqn:Hc;
      destruct (find P (appointments s)) as [c0|] eqn:Hc0.
    + reflexivity.
    + assert (H : existsb P (appointments s) = true).
      { rewrite <- HP. apply find_is_Some_existsb. rewrite Hc. eauto. }
      apply find_is_Some_existsb in H as [x Hx]. congruence.
    + assert (H : existsb P (appointments (saveAppointment s (confirmedRow a)))
                  = true).
      { rewrite HP. apply find_is_Some_existsb. rewrite Hc0. eauto. }
      apply find_is_Some_existsb in H as [x Hx]. congruence.
    + now destruct (start <=? now).
  - intros L fuel now doc date. unfold getAvailability.
    change (findDoctorByPk (saveAppointment s _) doc)
      with (findDoctorByPk s doc).
    destruct (findDoctorByPk s doc) as [d|]; [|split; reflexivity].
    destruct (targetDate L now date) as [t|]; [|split; reflexivity].
    unfold availableSlots.
    destruct (window L d (setHours L t 0 0 0 0)) as [[ws we]|];
      [|split; reflexivity].
    rewrite (slotLoop_ext
               (dayAppointments s doc (setHours L t 0 0 0 0)
                  (setHours L (setHours L t 0 0 0 0) 23 59 59 999))
               (dayAppointments (saveAppointment s (confirmedRow a)) doc
                  (setHours L t 0 0 0 0)
                  (setHours L (setHours L t 0 0 0 0) 23 59 59 999))).
    + destruct (slotLoop fuel _ _ ws we); split; reflexivity.
    + intros cur slotEnd. unfold dayAppointments.
      rewrite !existsb_orderByDate, !existsb_filter.
      apply Hsame. unfold dayWhere, slotConflicts. cbn. now rewrite Hsched.
Qed.

Lemma confirm_keeps_schedule_witness :
  let a := UtcRuntime.appointmentRow UtcRuntime.row1
             (UtcRuntime.instant "2030-01-07T10:00:00.000Z") 30 scheduled in
  let s := UtcRuntime.clinic None [a] in
  let request := UtcRuntime.bookingBody "2030-01-07T10:15:00.000Z" 30 in
  code (fst (postAppointment UtcRuntime.lib (UtcRuntime.instant "2030-01-01")
               UtcRuntime.row2 (snd (confirmAppointment s UtcRuntime.row1))
               request))
  = 409.
Proof.
  intros a s request.
  rewrite (proj1 (confirm_keeps_schedule s UtcRuntime.row1 eq_refl)
             UtcRuntime.lib (UtcRuntime.instant "2030-01-01") UtcRuntime.row2
             request).
  reflexivity.
Defined.

(** ** What a booking leaves behind *)

Section BookingAfter.

Variable L : Library.

Lemma postAppointment_201 (now : Z) (newId : string) (s : Store) (body : Body) :
  code (fst (postAppointment L now newId s body)) = 201 ->
  exists start p d,
    appointmentValidation L body = true
    /\ findPatientByPk s (textOf (body !! "patientId")) = Some p
    /\ findDoctorByPk s (textOf (body !! "doctorId")) = Some d
    /\ Date_parse L (textOf (body !! "appointmentDate")) = Some start
    /\ conflictingAppointment s (textOf (body !! "doctorId")) start
         (start + default 30 (body !! "duration" ≫= intOf) * 60000)
         (default 30 (body !! "duration" ≫= intOf)) = None
    /\ now < start
    /\ postAppointment L now newId s body
       = (ok 201 "Appointment scheduled successfully",
          createAppointment s
            (newAppointment newId (textOf (body !! "patientId"))
               (textOf (body !! "doctorId")) start
               (default 30 (body !! "duration" ≫= intOf))
               (default "consultation" (textOf ∘ Some <$> body !! "type"))
               (body !! "reason") (body !! "symptoms"))).
Proof.
  unfold postAppointment.
  destruct (appointmentValidation L body) eqn:Hval; cbn [negb];
    [|cbn; discriminate].
  destruct (findPatientByPk s _) as [p|] eqn:Hp; [|cbn; discriminate].
  destruct (findDoctorByPk s _) as [d|] eqn:Hd; [|cbn; discriminate].
  destruct (Date_parse L _) as [start|] eqn:Hdate; [|cbn; discriminate].
  destruct (conflictingAppointment s _ _ _ _) eqn:Hc; [cbn; discriminate|].
  destruct (Z.leb_spec start now); [cbn; discriminate|].
  intros _. exists start, p, d. auto 10.
Qed.

(** A duration that passed validation, or the default, is in range. *)
Lemma validated_duration (body : Body) :
  appointmentValidation L body = true ->
  15 <= default 30 (body !! "duration" ≫= intOf) <= 240.
Proof.
  unfold appointmentValidation. rewrite !andb_true_iff.
  intros ((((_ & Hdur) & _) & _) & _).
  destruct (body !! "duration") as [v|]; cbn in Hdur |- *; [|lia].
  unfold isInt in Hdur. destruct (intOf v) as [n|]; [|discriminate].
  cbn. apply andb_true_iff in Hdur as [H1 H2]. lia.
Qed.

Lemma find_None_forall {A} (P : A -> bool) (l : list A) :
  find P l = None -> forall x, In x l -> P x = false.
Proof.
  intros Hnone x Hx. destruct (P x) eqn:HP; [|reflexivity].
  assert (is_Some (find P l)) as [y Hy].
  { apply find_is_Some_existsb. apply List.existsb_exists. eauto. }
  congruence.
Qed.

End BookingAfter.

(** X6.  What a 201 of the booking route guarantees.  Exactly one row is
    appended, the earlier rows stay as they are.  The new row has the key
    drawn for it, status scheduled, a start after [now], a duration from 15
    to 240 minutes (30 when the request names none), a patient and a doctor
    that exist; and no scheduled or confirmed appointment of that doctor
    starts within one requested duration before the new start or up to the
    new end. *)
Theorem booking_created (L : Library) (now : Z) (newId : string) (s : Store)
    (body : Body) :
  code (fst (postAppointment L now newId s body)) = 201 ->
  exists a,
    appointments (snd (postAppointment L now newId s body))
    = (appointments s ++ [a])%list
    /\ patients (snd (postAppointment L now newId s body)) = patients s
    /\ doctors (snd (postAppointment L now newId s body)) = doctors s
    /\ id a = newId
    /\ status a = scheduled
    /\ Date_parse L (textOf (body !! "appointmentDate")) = Some (appointmentDate a)
    /\ now < appointmentDate a
    /\ 15 <= duration a <= 240
    /\ (body !! "duration" = None -> duration a = 30)
    /\ is_Some (findPatientByPk s (patientId a))
    /\ is_Some (findDoctorByPk s (doctorId a))
    /\ forall r,
        In r (appointments s) ->
        doctorId r = doctorId a ->
        status r = scheduled \/ status r = confirmed ->
        appointmentDate r < appointmentDate a - duration a * 60000
        \/ endOf a < appointmentDate r.
Proof.
  intros H201.
  destruct (postAppointment_201 L _ _ _ _ H201)
    as (start & p & d & Hval & Hp & Hd & Hdate & Hnone & Hfut & Hrun).
  rewrite Hrun. cbn [snd]. eexists. split; [reflexivity|].
  cbn -[default intOf].
  repeat split; eauto using validated_duration.
  - apply (validated_duration L body Hval).
  - apply (validated_duration L body Hval).
  - intros Hno. now rewrite Hno.
  - intros r Hr Hdoc Hst.
    pose proof (find_None_forall _ _ Hnone r Hr) as Hmiss.
    apply not_true_iff_false in Hmiss.
    rewrite conflictWhere_spec in Hmiss.
    pose proof (validated_duration L body Hval) as Hdur.
    unfold endOf. cbn -[default intOf] in Hdoc |- *.
    set (dur := default 30 (body !! "duration" ≫= intOf)) in *.
    destruct (Z_lt_dec (appointmentDate r) (start - dur * 60000)) as [|Hlo];
      [now left|].
    destruct (Z_lt_dec (start + dur * 60000) (appointmentDate r)) as [|Hhi];
      [now right|].
    exfalso. apply Hmiss. split; [exact Hdoc|]. split; [exact Hst|]. lia.
Qed.

Lemma booking_created_witness :
  let s := UtcRuntime.clinic None [] in
  let r := postAppointment UtcRuntime.lib (UtcRuntime.instant "2030-01-01")
             UtcRuntime.row1 s
             (UtcRuntime.bookingBody "2030-01-07T09:00:00.000Z" 45) in
  exists a, appointments (snd r) = [a]
            /\ status a = scheduled
            /\ 15 <= duration a <= 240.
Proof.
  intros s r.
  destruct (booking_created UtcRuntime.lib (UtcRuntime.instant "2030-01-01")
              UtcRuntime.row1 s
              (UtcRuntime.bookingBody "2030-01-07T09:00:00.000Z" 45) eq_refl)
    as (a & Hrows & _ & _ & _ & Hst & _ & _ & Hdur & _).
  exists a. auto.
Defined.

(** X7.  A booking cannot be submitted twice.  After a 201, the same
    request body is answered 409 at any later time and with any new key,
    and nothing is stored. *)
Theorem booking_repeat_rejected (L : Library) (now : Z) (newId : string)
    (s : Store) (body : Body) :
  code (fst (postAppointment L now newId s body)) = 201 ->
  forall (now' : Z) (newId' : string),
    postAppointment L now' newId' (snd (postAppointment L now newId s body)) body
    = (err 409 "Doctor is not available at the requested time",
       snd (postAppointment L now newId s body)).
Proof.
  intros H201 now' newId'.
  destruct (postAppointment_201 L _ _ _ _ H201)
    as (start & p & d & Hval & Hp & Hd & Hdate & Hnone & Hfut & Hrun).
  rewrite Hrun. cbn [snd].
  set (a := newAppointment _ _ _ _ _ _ _ _).
  unfold postAppointment at 1. rewrite Hval. cbn [negb].
  change (findPatientByPk (createAppointment s a)) with (findPatientByPk s).
  change (findDoctorByPk (createAppointment s a)) with (findDoctorByPk s).
  rewrite Hp, Hd, Hdate.
  pose proof (validated_duration L body Hval) as Hdur.
  assert (Hhit : is_Some
            (conflictingAppointment (createAppointment s a)
               (textOf (body !! "doctorId")) start
               (start + default 30 (body !! "duration" ≫= intOf) * 60000)
               (default 30 (body !! "duration" ≫= intOf)))).
  { apply find_is_Some_existsb. cbn [appointments createAppointment].
    rewrite List.existsb_app. apply orb_true_iff. right.
    cbn [existsb]. rewrite orb_false_r.
    apply conflictWhere_spec. unfold a. cbn -[default intOf].
    split; [reflexivity|]. split; [now left|]. lia. }
  destruct Hhit as [c Hc]. now rewrite Hc.
Qed.

Lemma booking_repeat_rejected_witness :
  let s := UtcRuntime.clinic None [] in
  let body := UtcRuntime.bookingBody "2030-01-07T09:00:00.000Z" 45 in
  let r := postAppointment UtcRuntime.lib (UtcRuntime.instant "2030-01-01")
             UtcRuntime.row1 s body in
  postAppointment UtcRuntime.lib (UtcRuntime.instant "2030-01-02")
    UtcRuntime.row2 (snd r) body
  = (err 409 "Doctor is not available at the requested time", snd r).
Proof.
  intros s body r.
  apply (booking_repeat_rejected UtcRuntime.lib
           (UtcRuntime.instant "2030-01-01") UtcRuntime.row1 s body eq_refl).
Defined.

Section BookingComposition.

Lemma slotLoop_free (appts : list Appointment) (mins we : Z) :
  forall (fuel : nat) (ws : Z) (l : list Slot),
    slotLoop fuel appts mins ws we = Some l ->
    forall c, In c l ->
              existsb (slotConflicts (slot_start c) (slot_end c)) appts = false.
Proof.
  intros fuel. induction fuel as [|fuel IH]; intros ws l Hl c Hc; cbn in Hl.
  - destruct (ws <? we); [discriminate|]. inversion Hl; subst l. contradiction.
  - destruct (ws <? we); [|inversion Hl; subst l; contradiction].
    destruct (slotLoop fuel appts mins (ws + mins * 60000) we) as [later|] eqn:Hlater;
      [|discriminate].
    destruct (existsb (slotConflicts ws (ws + mins * 60000)) appts) eqn:Hfree;
      inversion Hl; subst l.
    + eapply IH; eauto.
    + destruct Hc as [<- | Hc]; [exact Hfree | eapply IH; eauto].
Qed.

Lemma find_app_last {A} (P : A -> bool) (l : list A) (a : A) :
  find P (l ++ [a])
  = match find P l with
    | Some x => Some x
    | None => if P a then Some a else None
    end.
Proof.
  induction l as [|x rest IH]; cbn; [reflexivity|].
  now destruct (P x).
Qed.

End BookingComposition.

(** X8.  A booked time is not offered again.  After a 201, when the
    availability of the booked doctor is asked for a day that holds the new
    start, no slot that is listed overlaps the new appointment. *)
Theorem booked_time_not_offered (L : Library) (now : Z) (newId : string)
    (s : Store) (body : Body) :
  code (fst (postAppointment L now newId s body)) = 201 ->
  exists a,
    appointments (snd (postAppointment L now newId s body))
    = (appointments s ++ [a])%list
    /\ forall (fuel : nat) (now' : Z) (date : option string) (t : Z)
              (data : AvailabilityData),
        targetDate L now' date = Some t ->
        setHours L t 0 0 0 0 <= appointmentDate a
        <= setHours L (setHours L t 0 0 0 0) 23 59 59 999 ->
        getAvailability L fuel now' (snd (postAppointment L now newId s body))
          (doctorId a) date
        = Some (ok 200 "", Some data) ->
        forall c, In c (availableSlotsOut data) ->
                  overlaps (slot_start c) (slot_end c) (startOf a) (endOf a)
                  = false.
Proof.
  intros H201.
  destruct (postAppointment_201 L _ _ _ _ H201)
    as (start & p & d & Hval & Hp & Hd & Hdate & Hnone & Hfut & Hrun).
  rewrite Hrun. cbn [snd]. eexists. split; [reflexivity|].
  set (a := newAppointment _ _ _ _ _ _ _ _).
  intros fuel now' date t data Ht Hday Hget c Hc.
  unfold getAvailability in Hget.
  destruct (findDoctorByPk (createAppointment s a) (doctorId a)) as [doc|];
    [|discriminate].
  rewrite Ht in Hget. unfold availableSlots in Hget.
  destruct (window L doc (setHours L t 0 0 0 0)) as [[ws we]|].
  - destruct (slotLoop fuel _ _ ws we) as [l|] eqn:Hl; [|discriminate].
    inversion Hget; subst data. cbn [availableSlotsOut] in Hc.
    pose proof (slotLoop_free _ _ _ _ _ _ Hl c Hc) as Hfree.
    unfold dayAppointments in Hfree.
    rewrite existsb_orderByDate, existsb_filter in Hfree.
    cbn [appointments createAppointment] in Hfree.
    rewrite List.existsb_app in Hfree. apply orb_false_iff in Hfree as [_ Hlast].
    cbn [existsb] in Hlast. rewrite orb_false_r in Hlast.
    assert (Hin : dayWhere (doctorId a) (setHours L t 0 0 0 0)
                    (setHours L (setHours L t 0 0 0 0) 23 59 59 999) a = true).
    { apply dayWhere_spec. split; [reflexivity|]. split; [exact Hday|].
      now left. }
    rewrite Hin in Hlast. cbn [andb] in Hlast.
    now rewrite slotConflicts_overlaps in Hlast.
  - inversion Hget; subst data. contradiction.
Qed.

Lemma booked_time_not_offered_witness :
  let s := UtcRuntime.clinic None [] in
  let body := UtcRuntime.bookingBody "2030-01-07T10:00:00.000Z" 30 in
  let r := postAppointment UtcRuntime.lib (UtcRuntime.instant "2030-01-01")
             UtcRuntime.row1 s body in
  let a := UtcRuntime.appointmentRow UtcRuntime.row1
             (UtcRuntime.instant "2030-01-07T10:00:00.000Z") 30 scheduled in
  let c := mkSlot (UtcRuntime.instant "2030-01-07T09:30:00.000Z")
                  (UtcRuntime.instant "2030-01-07T10:00:00.000Z") 30 in
  overlaps (slot_start c) (slot_end c) (startOf a) (endOf a) = false.
Proof.
  intros s body r a c.
  destruct (booked_time_not_offered UtcRuntime.lib
              (UtcRuntime.instant "2030-01-01") UtcRuntime.row1 s body eq_refl)
    as (a' & Hrows & Hfree).
  assert (Ha : a' = a) by (vm_compute in Hrows; now inversion Hrows).
  rewrite Ha in Hfree.
  destruct (getAvailability UtcRuntime.lib 16 (UtcRuntime.instant "2030-01-02")
              (snd r) (doctorId a) (Some "2030-01-07"))
    as [[resp [data|]]|] eqn:Hget; try (vm_compute in Hget; discriminate).
  assert (Hresp : resp = ok 200 "") by (vm_compute in Hget; now inversion Hget).
  subst resp.
  apply (Hfree 16%nat (UtcRuntime.instant "2030-01-02") (Some "2030-01-07")
           (UtcRuntime.instant "2030-01-07") data eq_refl).
  - vm_compute. split; discriminate.
  - exact Hget.
  - vm_compute in Hget. inversion Hget. cbn. auto.
Defined.

(** X9.  A booking can be read back.  After a 201 under a key that was not
    in use, the appointment is found under that key: an admin reads it with
    200, and a patient actor reads it with 200 exactly when the actor's
    patient profile is the patient of the request; what was found under the
    other keys is still found. *)
Theorem booking_then_read (L : Library) (now : Z) (newId : string) (s : Store)
    (body : Body) :
  code (fst (postAppointment L now newId s body)) = 201 ->
  findAppointmentByPk s newId = None ->
  let s' := snd (postAppointment L now newId s body) in
  exists a,
    findAppointmentByPk s' newId = Some a
    /\ patientId a = textOf (body !! "patientId")
    /\ doctorId a = textOf (body !! "doctorId")
    /\ (forall u, user_role u = admin ->
                  getAppointment s' u newId = (ok 200 "", Some a))
    /\ (forall u p,
           user_role u = patient ->
           findPatientByUser s (user_id u) = Some p ->
           (code (fst (getAppointment s' u newId)) = 200
            <-> patient_id p = textOf (body !! "patientId")))
    /\ forall k r, findAppointmentByPk s k = Some r ->
                   findAppointmentByPk s' k = Some r.
Proof.
  intros H201 Hfresh s'.
  destruct (postAppointment_201 L _ _ _ _ H201)
    as (start & p0 & d & Hval & Hp & Hd & Hdate & Hnone & Hfut & Hrun).
  unfold s'. rewrite Hrun. cbn [snd]. clear s'.
  set (a := newAppointment _ _ _ _ _ _ _ _).
  assert (Hrow : findAppointmentByPk (createAppointment s a) newId = Some a).
  { unfold findAppointmentByPk in *. cbn [appointments createAppointment].
    rewrite find_app_last, Hfresh. unfold a. cbn [id newAppointment].
    now rewrite String.eqb_refl. }
  exists a. split; [exact Hrow|]. split; [reflexivity|]. split; [reflexivity|].
  split; [|split].
  - intros u Hu. unfold getAppointment, patientDenied, doctorDenied.
    now rewrite Hrow, Hu.
  - intros u p Hu Hprofile. unfold getAppointment. rewrite Hrow.
    unfold patientDenied, doctorDenied. rewrite Hu. cbn [Role_eqb andb].
    change (findPatientByUser (createAppointment s a)) with (findPatientByUser s).
    rewrite Hprofile. unfold a. cbn [patientId newAppointment].
    destruct (String.eqb_spec (patient_id p) (textOf (body !! "patientId")));
      cbn; split; intros H; congruence.
  - intros k r Hr. unfold findAppointmentByPk in *.
    cbn [appointments createAppointment]. now rewrite find_app_last, Hr.
Qed.

Lemma booking_then_read_witness :
  let s := UtcRuntime.clinic None [] in
  let body := UtcRuntime.bookingBody "2030-01-07T10:00:00.000Z" 30 in
  let s' := snd (postAppointment UtcRuntime.lib (UtcRuntime.instant "2030-01-01")
                   UtcRuntime.row1 s body) in
  code (fst (getAppointment s' (mkUser UtcRuntime.userA patient) UtcRuntime.row1))
  = 200
  /\ code (fst (getAppointment s' (mkUser UtcRuntime.userB patient)
                  UtcRuntime.row1))
     <> 200.
Proof.
  intros s body s'.
  destruct (booking_then_read UtcRuntime.lib (UtcRuntime.instant "2030-01-01")
              UtcRuntime.row1 s body eq_refl eq_refl)
    as (a & _ & _ & _ & _ & Hpatient & _).
  split.
  - apply (Hpatient (mkUser UtcRuntime.userA patient)
             (mkPatient UtcRuntime.patientA UtcRuntime.userA) eq_refl eq_refl).
    reflexivity.
  - intros H.
    apply (Hpatient (mkUser UtcRuntime.userB patient)
             (mkPatient UtcRuntime.patientB UtcRuntime.userB) eq_refl eq_refl)
      in H.
    vm_compute in H. discriminate.
Defined.

(** X10.  The time flags of an appointment.  [isUpcoming] and [isOverdue]
    never hold together, and neither holds at the very instant of the
    start; an appointment that can be cancelled is not overdue; only a
    scheduled appointment is upcoming, so a confirmed one that lies more
    than two hours ahead can be cancelled and yet is not upcoming. *)
Theorem appointment_time_flags (a : Appointment) (now : Z) :
  isUpcoming a now && isOverdue a now = false
  /\ (appointmentDate a = now -> isUpcoming a now = false /\ isOverdue a now = false)
  /\ (canBeCancelled a now = true -> isOverdue a now = false)
  /\ (isUpcoming a now = true -> status a = scheduled /\ now < appointmentDate a)
  /\ (status a = confirmed ->
      appointmentDate a - now > 2 * 3600000 ->
      canBeCancelled a now = true /\ isUpcoming a now = false).
Proof.
  unfold isUpcoming, isOverdue, canBeCancelled.
  split; [|split; [|split; [|split]]].
  - destruct (Z.gtb_spec (appointmentDate a) now),
      (Z.ltb_spec (appointmentDate a) now); cbn; try reflexivity; try lia;
      now rewrite andb_false_r.
  - intros ->. rewrite Z.ltb_irrefl.
    destruct (Z.gtb_spec now now); [lia|]. auto.
  - rewrite andb_true_iff, Qgtb_hours. intros [_ Hfar].
    destruct (Z.ltb_spec (appointmentDate a) now); [lia|reflexivity].
  - rewrite andb_true_iff. intros [Hgt Hst].
    split; [destruct (status a); now try discriminate|].
    destruct (Z.gtb_spec (appointmentDate a) now); [lia|discriminate].
  - intros Hst Hfar. rewrite Hst. split.
    + apply andb_true_iff. split; [reflexivity|]. now apply Qgtb_hours.
    + cbn. now rewrite andb_false_r.
Qed.

Lemma appointment_time_flags_witness :
  let a := UtcRuntime.appointmentRow UtcRuntime.row1
             (UtcRuntime.instant "2030-01-07T10:00:00.000Z") 30 confirmed in
  canBeCancelled a (UtcRuntime.instant "2030-01-07T07:00:00.000Z") = true
  /\ isUpcoming a (UtcRuntime.instant "2030-01-07T07:00:00.000Z") = false.
Proof.
  intros a.
  apply (proj2 (proj2 (proj2 (proj2 (appointment_time_flags a
           (UtcRuntime.instant "2030-01-07T07:00:00.000Z")))))).
  - reflexivity.
  - vm_compute. reflexivity.
Defined.

(** ** More on the audit trail *)

Section AuditFacts.

Lemma prefix_trans (a b s : string) :
  String.prefix a b = true -> String.prefix b s = true ->
  String.prefix a s = true.
Proof.
  revert b s. induction a as [|c a IH]; intros b s Hab Hbs; [now destruct s|].
  destruct b as [|cb b]; [discriminate|].
  destruct s as [|cs s]; [discriminate|].
  cbn in Hab, Hbs |- *.
  destruct (ascii_dec c cb) as [->|]; [|discriminate].
  destruct (ascii_dec cb cs) as [->|]; [|discriminate].
  destruct (ascii_dec cs cs); [|congruence]. eauto.
Qed.

(** A path that includes a text includes every prefix of that text. *)
Lemma includes_prefix (s a b : string) :
  String.prefix a b = true -> includes s b = true -> includes s a = true.
Proof.
  intros Hab. induction s as [|c s IH]; cbn [includes].
  - destruct (String.prefix b "") eqn:Hb; [|discriminate].
    intros _. now rewrite (prefix_trans a b "" Hab Hb).
  - destruct (String.prefix b (String c s)) eqn:Hb.
    + intros _. now rewrite (prefix_trans a b _ Hab Hb).
    + intros Hrest.
      destruct (String.prefix a (String c s)); [reflexivity | now apply IH].
Qed.

Lemma orText_filled (o : option string) (fallback : string) :
  fallback <> "" -> orText o fallback <> "".
Proof.
  intros Hf. unfold orText. destruct o as [s|]; [|exact Hf].
  destruct (String.eqb_spec s ""); [exact Hf | assumption].
Qed.

Lemma orText_kept (s fallback : string) :
  s <> "" -> orText (Some s) fallback = s.
Proof.
  intros Hs. unfold orText. now destruct (String.eqb_spec s "").
Qed.

End AuditFacts.

(** X11.  What the request tells about its audit entry.  A request whose
    action is one of the four authentication actions is always of category
    authentication; a request of category data_modification is always a
    create, update or delete outside the /auth paths; and a request whose
    own [statusCode] holds no number is never of category error. *)
Theorem audit_derivation (req : Request) :
  let act := getActionFromRequest req in
  (arrayIncludes
     ["login_attempt"; "logout"; "user_registration"; "password_change"] act
   = true ->
   getCategoryFromRequest req act = "authentication")
  /\ (getCategoryFromRequest req act = "data_modification" ->
      arrayIncludes ["create"; "update"; "delete"] act = true
      /\ includes (req_path req) "/auth" = false)
  /\ (req_statusCode req = None ->
      getCategoryFromRequest req act <> "error").
Proof.
  cbv zeta. split; [|split].
  - unfold getActionFromRequest.
    destruct (includes (req_path req) "/auth/login") eqn:H1.
    { intros _. unfold getCategoryFromRequest.
      now rewrite (includes_prefix _ "/auth" "/auth/login" eq_refl H1). }
    destruct (includes (req_path req) "/auth/logout") eqn:H2.
    { intros _. unfold getCategoryFromRequest.
      now rewrite (includes_prefix _ "/auth" "/auth/logout" eq_refl H2). }
    destruct (includes (req_path req) "/auth/register") eqn:H3.
    { intros _. unfold getCategoryFromRequest.
      now rewrite (includes_prefix _ "/auth" "/auth/register" eq_refl H3). }
    destruct (includes (req_path req) "/auth/change-password") eqn:H4.
    { intros _. unfold getCategoryFromRequest.
      now rewrite (includes_prefix _ "/auth" "/auth/change-password" eq_refl H4). }
    destruct (String.eqb (req_method req) "GET"); [cbn; discriminate|].
    destruct (String.eqb (req_method req) "POST"); [cbn; discriminate|].
    destruct (String.eqb (req_method req) "PUT" || String.eqb (req_method req) "PATCH");
      [cbn; discriminate|].
    destruct (String.eqb (req_method req) "DELETE"); cbn; discriminate.
  - unfold getCategoryFromRequest.
    destruct (includes (req_path req) "/auth"); [discriminate|].
    destruct (String.eqb _ "read" && isPatientActor req); [discriminate|].
    destruct (arrayIncludes ["create"; "update"; "delete"] _); [auto|].
    destruct (includes (req_path req) "/upload"); [discriminate|].
    destruct (geNum (req_statusCode req) 400); discriminate.
  - intros Hnone. unfold getCategoryFromRequest. rewrite Hnone. cbn [geNum].
    destruct (includes (req_path req) "/auth"); [discriminate|].
    destruct (String.eqb _ "read" && isPatientActor req); [discriminate|].
    destruct (arrayIncludes ["create"; "update"; "delete"] _); [discriminate|].
    destruct (includes (req_path req) "/upload"); discriminate.
Qed.

Lemma audit_derivation_witness :
  getCategoryFromRequest UtcRuntime.loginRequest
    (getActionFromRequest UtcRuntime.loginRequest) = "authentication"
  /\ getCategoryFromRequest UtcRuntime.loginRequest
       (getActionFromRequest UtcRuntime.loginRequest) <> "error".
Proof.
  split.
  - apply (proj1 (audit_derivation UtcRuntime.loginRequest)). reflexivity.
  - apply (proj2 (proj2 (audit_derivation UtcRuntime.loginRequest))).
    reflexivity.
Defined.

(** X12.  The five specific logging functions fix the category.  With a
    store that returns the row it is given, the row written by
    [logSecurityEvent], [logDataAccess], [logDataModification],
    [logAuthenticationEvent] and [logError] has the category security,
    data_access, data_modification, authentication and error, whatever
    category the caller passed; its severity is the caller's when that is
    not empty and high, low, medium, medium and high otherwise; a row of
    [logError] is marked failed whatever the caller passed. *)
Theorem specific_events_category
    (AuditLog_create : AuditLog -> list AuditLog -> Result AuditLog)
    (data : AuditData) (w : World) :
  (forall row table, AuditLog_create row table = Returned row) ->
  let written (f : AuditData -> World -> option AuditLog * World)
        (c fallback : string) :=
    exists row,
      fst (f data w) = Some row
      /\ auditLogs (snd (f data w)) = (auditLogs w ++ [row])%list
      /\ category row = c
      /\ severity row = orText (d_severity data) fallback
      /\ severity row <> ""
      /\ action row = d_action data
      /\ userId row = d_userId data in
  written (logSecurityEvent AuditLog_create) "security" "high"
  /\ written (logDataAccess AuditLog_create) "data_access" "low"
  /\ written (logDataModification AuditLog_create) "data_modification" "medium"
  /\ written (logAuthenticationEvent AuditLog_create) "authentication" "medium"
  /\ written (logError AuditLog_create) "error" "high"
  /\ (forall row, fst (logError AuditLog_create data w) = Some row ->
                  isSuccessful row = false).
Proof.
  intros Hstore written.
  assert (Hfilled : forall fallback, fallback <> "" ->
             orText (Some (orText (d_severity data) fallback)) "low"
             = orText (d_severity data) fallback).
  { intros fallback Hf. apply orText_kept. now apply orText_filled. }
  unfold written, logSecurityEvent, logDataAccess, logDataModification,
    logAuthenticationEvent, logError, logAction.
  rewrite !Hstore. cbn [fst snd auditLogs].
  split; [|split; [|split; [|split; [|split]]]].
  1-5: eexists; split; [reflexivity|]; split; [reflexivity|];
       split; [reflexivity|];
       cbn [rowOf severity category action userId spreadWith markFailed
              d_severity d_category d_action d_userId];
       rewrite Hfilled by discriminate;
       split; [reflexivity|]; split; [|split; reflexivity];
       apply orText_filled; discriminate.
  intros row Hrow. inversion Hrow. reflexivity.
Qed.

Lemma specific_events_category_witness :
  let data :=
    {| d_userId := None; d_action := "read"; d_resource := "patient";
       d_resourceId := None; d_method := None; d_endpoint := None;
       d_ipAddress := None; d_userAgent := None; d_requestData := None;
       d_responseData := None; d_statusCode := None; d_duration := None;
       d_severity := None; d_category := Some "system";
       d_description := None; d_metadata := None; d_sessionId := None;
       d_isSuccessful := Some true; d_errorMessage := None |} in
  let w := UtcRuntime.emptyWorld (UtcRuntime.clinic None []) in
  exists row,
    fst (logError UtcRuntime.insertRow data w) = Some row
    /\ category row = "error"
    /\ isSuccessful row = false.
Proof.
  intros data w.
  destruct (specific_events_category UtcRuntime.insertRow data w
              (fun row table => eq_refl))
    as (_ & _ & _ & _ & (row & Hrow & _ & Hcat & _) & Hfailed).
  exists row. split; [exact Hrow|]. split; [exact Hcat|]. now apply Hfailed.
Defined.

(** X13.  Sanitising a request body keeps its set of property names and
    is idempotent: sanitising what was stored gives the same again. *)
Theorem sanitize_idempotent (body : Body) (query params : option Body) :
  let stored := sanitizeRequestData (Some body) query params in
  exists b,
    sr_body stored = Some b
    /\ dom b = dom body
    /\ sanitizeRequestData (Some b) (Some (sr_query stored))
         (Some (sr_params stored))
       = stored.
Proof.
  cbv zeta. unfold sanitizeRequestData. cbn [sr_body sr_query sr_params default].
  eexists. split; [reflexivity|]. split.
  - apply set_eq. intros k. rewrite !elem_of_dom, redact_lookup.
    destruct (arrayIncludes sensitiveFields k && truthyProp (body !! k)) eqn:Hk;
      [|reflexivity].
    apply andb_true_iff in Hk as [_ Htruthy].
    destruct (body !! k); [|discriminate]. split; eauto.
  - f_equal. f_equal. apply map_eq. intros k. rewrite !redact_lookup.
    destruct (arrayIncludes sensitiveFields k); cbn [andb]; [|reflexivity].
    destruct (truthyProp (body !! k)) eqn:Hb; cbn; [reflexivity|].
    now rewrite Hb.
Qed.

Section QueryFacts.

Lemma insertNewest_In (x y : StoredLog) (l : list StoredLog) :
  In y (insertNewest x l) <-> y = x \/ In y l.
Proof.
  induction l as [|z rest IH]; cbn; [intuition|].
  destruct (createdAt z <=? createdAt x); cbn; [intuition|].
  rewrite IH. intuition.
Qed.

Lemma newestFirst_In (y : StoredLog) (l : list StoredLog) :
  In y (newestFirst l) <-> In y l.
Proof.
  unfold newestFirst. induction l as [|x rest IH]; cbn [fold_right];
    [reflexivity|].
  rewrite insertNewest_In, IH. cbn. intuition.
Qed.

Lemma firstn_subset {A} (n : nat) (l : list A) (x : A) :
  In x (firstn n l) -> In x l.
Proof.
  revert l. induction n as [|n IH]; intros l; [contradiction|].
  destruct l as [|y rest]; cbn; [contradiction|]. intuition.
Qed.

Lemma skipn_subset {A} (n : nat) (l : list A) (x : A) :
  In x (skipn n l) -> In x l.
Proof.
  revert l. induction n as [|n IH]; intros l; [trivial|].
  destruct l as [|y rest]; cbn; [contradiction|]. intuition.
Qed.

Lemma pageOf_spec {A} (limit offset : Z) (sorted page : list A) :
  pageOf limit offset sorted = Some page ->
  0 <= limit
  /\ Z.of_nat (List.length page) <= limit
  /\ forall x, In x page -> In x sorted.
Proof.
  unfold pageOf.
  destruct (Z.ltb_spec limit 0); cbn [orb]; [discriminate|].
  destruct (Z.ltb_spec offset 0); [discriminate|].
  intros Hpage. inversion Hpage; subst page. split; [assumption|]. split.
  - rewrite List.length_firstn. lia.
  - intros x Hx. apply firstn_subset in Hx.
    now apply skipn_subset in Hx.
Qed.

Lemma findAndCountAll_spec (keep : StoredLog -> bool) (limit offset : Z)
    (table : list StoredLog) (page : Page) :
  findAndCountAll keep limit offset table = Some page ->
  count page = Z.of_nat (List.length (List.filter keep table))
  /\ Z.of_nat (List.length (rows page)) <= limit
  /\ forall r, In r (rows page) -> In r table /\ keep r = true.
Proof.
  unfold findAndCountAll.
  destruct (pageOf limit offset _) as [l|] eqn:Hl; [|discriminate].
  intros Hpage. inversion Hpage; subst page. cbn [count rows].
  destruct (pageOf_spec _ _ _ _ Hl) as (_ & Hlen & Hin).
  split; [reflexivity|]. split; [exact Hlen|].
  intros r Hr. apply Hin, newestFirst_In, List.filter_In in Hr. exact Hr.
Qed.

Lemma filter_length_last {A} (keep : A -> bool) (l : list A) (x : A) :
  Z.of_nat (List.length (List.filter keep (l ++ [x])))
  = Z.of_nat (List.length (List.filter keep l)) + (if keep x then 1 else 0).
Proof.
  rewrite List.filter_app, List.length_app. cbn [List.filter].
  destruct (keep x); cbn [List.length]; lia.
Qed.

End QueryFacts.


(** X15.  Failed logins are found again.  However a failed login was
    entered, by the middleware for a request on a path with /auth/login
    that was answered with 400 or more, or by [auditLoginAttempt] with
    [false], the count of [getFailedLogins] goes up by one when the entry
    is added to the table; an entry of [auditLoginAttempt] with [true]
    leaves the count as it was. *)
Theorem failed_login_listed (L : Library)
    (JSON_parse : string -> option JValue)
    (AuditLog_create : AuditLog -> list AuditLog -> Result AuditLog)
    (table : list StoredLog) (t : Z) :
  (forall row logs, AuditLog_create row logs = Returned row) ->
  exists before,
    getFailedLogins L noOptions table = Some before
    /\ (forall req reply startTime finishTime,
           includes (req_path req) "/auth/login" = true ->
           reply_statusCode reply >= 400 ->
           exists after,
             getFailedLogins L noOptions
               (table ++ [mkStoredLog t
                            (rowOf (finishData JSON_parse req reply
                                      startTime finishTime))])
             = Some after
             /\ count after = count before + 1)
    /\ (forall req successful message w row,
           fst (auditLoginAttempt AuditLog_create req successful message w)
           = Some row ->
           exists after,
             getFailedLogins L noOptions (table ++ [mkStoredLog t row])
             = Some after
             /\ count after = count before + (if successful then 0 else 1)).
Proof.
  intros Hstore.
  unfold getFailedLogins, findAndCountAll, pageOf. cbn [noOptions o_page o_limit
    o_dateFrom o_dateTo bound given boundReadable fmap option_fmap option_map
    default andb]. cbn [Z.ltb Z.sub Z.mul Z.compare orb Pos.compare].
  eexists. split; [reflexivity|]. cbn [count].
  split.
  - intros req reply startTime finishTime Hpath Hfail.
    eexists. split; [reflexivity|]. cbn [count].
    rewrite filter_length_last.
    assert (Hkeep : failedLoginWhere L noOptions
                      (mkStoredLog t (rowOf (finishData JSON_parse req reply
                                               startTime finishTime))) = true).
    { unfold failedLoginWhere. cbn.
      unfold getActionFromRequest, getCategoryFromRequest.
      rewrite Hpath, (includes_prefix _ "/auth" "/auth/login" eq_refl Hpath).
      destruct (Z.ltb_spec (reply_statusCode reply) 400); [lia|].
      reflexivity. }
    now rewrite Hkeep.
  - intros req successful message w row Hrow.
    unfold auditLoginAttempt, logAuthenticationEvent, logAction in Hrow.
    rewrite Hstore in Hrow. cbn [fst] in Hrow. inversion Hrow; subst row.
    eexists. split; [reflexivity|]. cbn [count].
    rewrite filter_length_last.
    unfold failedLoginWhere. cbn. now destruct successful.
Qed.

Lemma failed_login_listed_witness :
  exists before after,
    getFailedLogins UtcRuntime.lib noOptions [] = Some before
    /\ getFailedLogins UtcRuntime.lib noOptions
         [mkStoredLog 0
            (rowOf (finishData UtcRuntime.parseKnown UtcRuntime.loginRequest
                      UtcRuntime.loginRejected 0 5))]
       = Some after
    /\ count after = count before + 1.
Proof.
  destruct (failed_login_listed UtcRuntime.lib UtcRuntime.parseKnown
              UtcRuntime.insertRow [] 0 (fun row logs => eq_refl))
    as (before & Hbefore & Hmiddleware & _).
  destruct (Hmiddleware UtcRuntime.loginRequest UtcRuntime.loginRejected 0 5
              eq_refl)
    as (after & Hafter & Hcount); [cbn; lia|].
  exists before, after. auto.
Defined.


(** ** Listing appointments *)

Section ListingFacts.

Lemma insertByDate_In (a x : Appointment) (l : list Appointment) :
  In x (insertByDate a l) <-> x = a \/ In x l.
Proof.
  induction l as [|b rest IH]; cbn; [intuition|].
  destruct (appointmentDate a <=? appointmentDate b); cbn; [intuition|].
  rewrite IH. intuition.
Qed.

Lemma orderByDate_In (x : Appointment) (l : list Appointment) :
  In x (orderByDate l) <-> In x l.
Proof.
  unfold orderByDate. induction l as [|a rest IH]; cbn [fold_right];
    [reflexivity|].
  rewrite insertByDate_In, IH. cbn. intuition.
Qed.

Lemma insertByDate_length (a : Appointment) (l : list Appointment) :
  List.length (insertByDate a l) = S (List.length l).
Proof.
  induction l as [|b rest IH]; cbn; [reflexivity|].
  destruct (appointmentDate a <=? appointmentDate b); cbn; [reflexivity|].
  now rewrite IH.
Qed.

Lemma orderByDate_length (l : list Appointment) :
  List.length (orderByDate l) = List.length l.
Proof.
  unfold orderByDate. induction l as [|a rest IH]; cbn [fold_right];
    [reflexivity|].
  rewrite insertByDate_length. cbn. now rewrite IH.
Qed.

Lemma insertByDate_sorted (a : Appointment) (l : list Appointment) :
  StronglySorted dateLe l -> StronglySorted dateLe (insertByDate a l).
Proof.
  induction l as [|b rest IH]; intros Hs; cbn.
  - constructor; constructor.
  - inversion Hs as [|? ? Hrest Hall]; subst.
    destruct (Z.leb_spec (appointmentDate a) (appointmentDate b)) as [Hle|Hgt].
    + constructor; [exact Hs|]. constructor; [exact Hle|].
      apply List.Forall_forall. intros x Hx.
      rewrite List.Forall_forall in Hall. specialize (Hall x Hx).
      unfold dateLe in *. lia.
    + constructor; [now apply IH|].
      apply List.Forall_forall. intros x Hx.
      apply insertByDate_In in Hx as [-> | Hx].
      * unfold dateLe. lia.
      * rewrite List.Forall_forall in Hall. now apply Hall.
Qed.

Lemma orderByDate_sorted (l : list Appointment) :
  StronglySorted dateLe (orderByDate l).
Proof.
  unfold orderByDate. induction l as [|a rest IH]; cbn [fold_right].
  - constructor.
  - now apply insertByDate_sorted.
Qed.

Lemma skipn_sorted {A} (R : A -> A -> Prop) (n : nat) (l : list A) :
  StronglySorted R l -> StronglySorted R (skipn n l).
Proof.
  revert l. induction n as [|n IH]; intros l Hs; [exact Hs|].
  destruct l as [|x rest]; [exact Hs|]. cbn.
  inversion Hs; subst. now apply IH.
Qed.

Lemma firstn_sorted {A} (R : A -> A -> Prop) (n : nat) (l : list A) :
  StronglySorted R l -> StronglySorted R (firstn n l).
Proof.
  revert l. induction n as [|n IH]; intros l Hs; [constructor|].
  destruct l as [|x rest]; [constructor|]. cbn.
  inversion Hs as [|? ? Hrest Hall]; subst. constructor; [now apply IH|].
  apply List.Forall_forall. intros y Hy. apply firstn_subset in Hy.
  rewrite List.Forall_forall in Hall. now apply Hall.
Qed.

(** What a 200 of the listing is made of. *)
Lemma listAppointments_ok (L : Library) (readsUuid : string -> bool) (now : Z)
    (s : Store) (u : User) (q : ListQuery) (resp : Response) (data : ListData) :
  listAppointments L readsUuid now s u q = (resp, Some data) ->
  let w := roleWhere s u (queryWhere L now q) in
  let matching := List.filter (rowMatches w) (appointments s) in
  let limit := default 10 (q_limit q) in
  let offset := (default 1 (q_page q) - 1) * limit in
  resp = ok 200 ""
  /\ clauseReadable readsUuid w = true
  /\ 0 <= limit /\ 0 <= offset
  /\ listed data
     = firstn (Z.to_nat limit) (skipn (Z.to_nat offset) (orderByDate matching))
  /\ total data = Z.of_nat (List.length matching)
  /\ pages data = pagesOf (Z.of_nat (List.length matching)) limit.
Proof.
  unfold listAppointments, pageOf. cbv zeta.
  destruct (clauseReadable readsUuid _); [|discriminate].
  destruct (Z.ltb_spec (default 10 (q_limit q)) 0); cbn [orb]; [discriminate|].
  destruct (Z.ltb_spec ((default 1 (q_page q) - 1) * default 10 (q_limit q)) 0);
    [discriminate|].
  intros Hrun. inversion Hrun; subst. cbn. auto 10.
Qed.

End ListingFacts.

(** X16.  The listing keeps actors apart.  In a listing answered 200 every
    row is a row of the table; for a patient actor with a patient profile
    every row belongs to that profile, and for a doctor actor with a doctor
    profile every row is with that doctor, whatever [patientId] or
    [doctorId] the query names. *)
Theorem listing_isolation (L : Library) (readsUuid : string -> bool) (now : Z)
    (s : Store) (u : User) (q : ListQuery) (resp : Response) (data : ListData) :
  listAppointments L readsUuid now s u q = (resp, Some data) ->
  (forall a, In a (listed data) -> In a (appointments s))
  /\ (forall p,
         user_role u = patient ->
         findPatientByUser s (user_id u) = Some p ->
         forall a, In a (listed data) -> patientId a = patient_id p)
  /\ (forall d,
         user_role u = doctor ->
         findDoctorByUser s (user_id u) = Some d ->
         forall a, In a (listed data) -> doctorId a = doctor_id d).
Proof.
  intros Hrun.
  destruct (listAppointments_ok _ _ _ _ _ _ _ _ Hrun)
    as (_ & _ & _ & _ & Hrows & _).
  assert (Hin : forall a, In a (listed data) ->
             In a (appointments s)
             /\ rowMatches (roleWhere s u (queryWhere L now q)) a = true).
  { intros a Ha. rewrite Hrows in Ha.
    apply firstn_subset, skipn_subset, orderByDate_In, List.filter_In in Ha.
    exact Ha. }
  split; [intros a Ha; now apply Hin|]. split.
  - intros p Hrole Hp a Ha. destruct (Hin a Ha) as [_ Hm].
    unfold roleWhere in Hm. rewrite Hrole, Hp in Hm.
    unfold rowMatches in Hm. cbn [w_patientId] in Hm.
    rewrite !andb_true_iff in Hm.
    destruct Hm as (((((Hm & _) & _) & _) & _) & _).
    now apply String.eqb_eq.
  - intros d Hrole Hd a Ha. destruct (Hin a Ha) as [_ Hm].
    unfold roleWhere in Hm. rewrite Hrole, Hd in Hm.
    unfold rowMatches in Hm. cbn [w_doctorId] in Hm.
    rewrite !andb_true_iff in Hm.
    destruct Hm as (((((_ & Hm) & _) & _) & _) & _).
    now apply String.eqb_eq.
Qed.

(** X17.  [upcoming=true] overrides the status and the dates of the query:
    every row of such a listing is scheduled or confirmed and does not start
    before [now], whatever [status], [dateFrom] and [dateTo] say. *)
Theorem listing_upcoming (L : Library) (readsUuid : string -> bool) (now : Z)
    (s : Store) (u : User) (q : ListQuery) (resp : Response) (data : ListData) :
  listAppointments L readsUuid now s u q = (resp, Some data) ->
  q_upcoming q = Some "true" ->
  forall a, In a (listed data) ->
            (status a = scheduled \/ status a = confirmed)
            /\ now <= appointmentDate a.
Proof.
  intros Hrun Hup a Ha.
  destruct (listAppointments_ok _ _ _ _ _ _ _ _ Hrun)
    as (_ & _ & _ & _ & Hrows & _).
  rewrite Hrows in Ha.
  apply firstn_subset, skipn_subset, orderByDate_In, List.filter_In in Ha.
  destruct Ha as [_ Hm].
  assert (Hst : w_status (roleWhere s u (queryWhere L now q)) = Some StatusBooked
                /\ w_from (roleWhere s u (queryWhere L now q)) = Some (Some now)).
  { unfold roleWhere, queryWhere. rewrite Hup. cbn.
    destruct (user_role u);
      [ | destruct (findDoctorByUser s (user_id u))
        | destruct (findPatientByUser s (user_id u)) ]; cbn; auto. }
  destruct Hst as [Hst Hfrom].
  unfold rowMatches in Hm. rewrite Hst, Hfrom in Hm.
  rewrite !andb_true_iff in Hm.
  destruct Hm as (((((_ & _) & Hbooked) & _) & Hafter) & _).
  split; [now apply statusIn_booked|]. cbn in Hafter. lia.
Qed.


Lemma listing_witness_run :
  let a1 := UtcRuntime.appointmentRow UtcRuntime.row1
              (UtcRuntime.instant "2030-01-07T10:00:00.000Z") 30 scheduled in
  let a2 := UtcRuntime.appointmentRow UtcRuntime.row2
              (UtcRuntime.instant "2030-01-06T10:00:00.000Z") 30 cancelled in
  let q := mkListQuery (Some 1) (Some 10) (Some UtcRuntime.patientB) None
             (Some "cancelled") None None None (Some "true") in
  listAppointments UtcRuntime.lib (UtcRuntime.uuidShape 0)
    (UtcRuntime.instant "2030-01-01") (UtcRuntime.clinic None [a1; a2])
    (mkUser UtcRuntime.userA patient) q
  = (ok 200 "", Some (mkListData [a1] 1 1 10 (Some 1))).
Proof. vm_compute. reflexivity. Qed.

Lemma listing_isolation_witness :
  patientId (UtcRuntime.appointmentRow UtcRuntime.row1
               (UtcRuntime.instant "2030-01-07T10:00:00.000Z") 30 scheduled)
  = UtcRuntime.patientA.
Proof.
  apply (proj1 (proj2 (listing_isolation _ _ _ _ _ _ _ _ listing_witness_run))
           (mkPatient UtcRuntime.patientA UtcRuntime.userA) eq_refl eq_refl).
  now left.
Defined.

Lemma listing_upcoming_witness :
  let a1 := UtcRuntime.appointmentRow UtcRuntime.row1
              (UtcRuntime.instant "2030-01-07T10:00:00.000Z") 30 scheduled in
  (status a1 = scheduled \/ status a1 = confirmed)
  /\ UtcRuntime.instant "2030-01-01" <= appointmentDate a1.
Proof.
  intros a1.
  apply (listing_upcoming _ _ _ _ _ _ _ _ listing_witness_run eq_refl).
  now left.
Defined.


(** ** Methods of the doctor and medical record models *)

Section ProfileFacts.

Lemma digit_compare_all :
  forallb
    (fun i =>
       forallb
         (fun j =>
            sameOrder (Ascii.compare (digitChar (Z.of_nat i)) (digitChar (Z.of_nat j)))
                      (Z.of_nat i ?= Z.of_nat j))
         (seq 0 10))
    (seq 0 10)
  = true.
Proof. vm_compute. reflexivity. Qed.

Lemma digit_compare (i j : Z) :
  0 <= i < 10 -> 0 <= j < 10 ->
  Ascii.compare (digitChar i) (digitChar j) = (i ?= j).
Proof.
  intros Hi Hj. pose proof digit_compare_all as Hall.
  rewrite List.forallb_forall in Hall.
  specialize (Hall (Z.to_nat i)). rewrite List.forallb_forall in Hall.
  specialize (Hall ltac:(apply List.in_seq; lia) (Z.to_nat j)
                   ltac:(apply List.in_seq; lia)).
  rewrite !Z2Nat.id in Hall by lia.
  destruct (Ascii.compare _ _), (i ?= j); now try discriminate.
Qed.

(** On clock readings of two digits each, the order of the texts is the
    order of the times. *)
Lemma clock_le (h m h' m' : Z) :
  0 <= h < 100 -> 0 <= m < 60 -> 0 <= h' < 100 -> 0 <= m' < 60 ->
  textLe (clock h m) (clock h' m') = (h * 60 + m <=? h' * 60 + m').
Proof.
  intros Hh Hm Hh' Hm'.
  pose proof (Z.div_mod h 10 ltac:(lia)).
  pose proof (Z.mod_pos_bound h 10 ltac:(lia)).
  pose proof (Z.div_mod m 10 ltac:(lia)).
  pose proof (Z.mod_pos_bound m 10 ltac:(lia)).
  pose proof (Z.div_mod h' 10 ltac:(lia)).
  pose proof (Z.mod_pos_bound h' 10 ltac:(lia)).
  pose proof (Z.div_mod m' 10 ltac:(lia)).
  pose proof (Z.mod_pos_bound m' 10 ltac:(lia)).
  assert (0 <= h / 10 < 10) by (split; [apply Z.div_pos | apply Z.div_lt_upper_bound]; lia).
  assert (0 <= m / 10 < 10) by (split; [apply Z.div_pos | apply Z.div_lt_upper_bound]; lia).
  assert (0 <= h' / 10 < 10) by (split; [apply Z.div_pos | apply Z.div_lt_upper_bound]; lia).
  assert (0 <= m' / 10 < 10) by (split; [apply Z.div_pos | apply Z.div_lt_upper_bound]; lia).
  unfold textLe, String.leb, clock, twoDigits.
  cbv [String.append]. cbn [String.compare].
  rewrite !digit_compare by lia.
  change (Ascii.compare ":" ":") with Eq.
  destruct (Z.compare_spec (h / 10) (h' / 10));
    destruct (Z.compare_spec (h mod 10) (h' mod 10));
    destruct (Z.compare_spec (m / 10) (m' / 10));
    destruct (Z.compare_spec (m mod 10) (m' mod 10));
    cbn; symmetry;
    first [ apply Z.leb_le; lia | apply Z.leb_gt; lia ].
Qed.

End ProfileFacts.

(** X19.  [isAvailableAtTime] on clock texts.  A doctor without
    [availableHours] is never available.  With hours written as two digits,
    a colon, two digits, a time written the same way is available exactly
    when it lies from the start to the end, both included.  The test
    compares texts: against the hours 09:00-17:00 the time 9:30, written
    without the leading zero, is not available. *)
Theorem available_at_time :
  (forall d time, availableHours d = None -> isAvailableAtTime d time = false)
  /\ (forall d h m h1 m1 h2 m2,
         0 <= h < 24 -> 0 <= m < 60 ->
         0 <= h1 < 24 -> 0 <= m1 < 60 ->
         0 <= h2 < 24 -> 0 <= m2 < 60 ->
         availableHours d = Some (mkHours (clock h1 m1) (clock h2 m2)) ->
         (isAvailableAtTime d (clock h m) = true
          <-> h1 * 60 + m1 <= h * 60 + m <= h2 * 60 + m2))
  /\ (forall d, availableHours d = Some (mkHours "09:00" "17:00") ->
                isAvailableAtTime d "9:30" = false
                /\ isAvailableAtTime d "09:30" = true).
Proof.
  split; [|split].
  - intros d time Hnone. unfold isAvailableAtTime. now rewrite Hnone.
  - intros d h m h1 m1 h2 m2 Hh Hm Hh1 Hm1 Hh2 Hm2 Hhours.
    unfold isAvailableAtTime. rewrite Hhours. cbn [hours_start hours_end].
    rewrite !clock_le by lia.
    rewrite andb_true_iff, !Z.leb_le. tauto.
  - intros d Hhours. unfold isAvailableAtTime. rewrite Hhours.
    split; reflexivity.
Qed.

Lemma available_at_time_witness :
  let d := mkDoctor UtcRuntime.doctorD UtcRuntime.userD
             (Some (mkHours "09:00" "17:00")) (Some 30) in
  isAvailableAtTime d "17:00" = true.
Proof.
  intros d.
  apply (proj1 (proj2 available_at_time) d 17 0 9 0 17 0); try lia.
  reflexivity.
Defined.

(** X20.  The age of a medical record in days counts the days begun:
    it is 0 exactly when no time has passed, the same whichever of the two
    instants is the later, and otherwise the [n] with
    [(n - 1) days < |now - createdAt| <= n days]. *)
Theorem record_age (recordCreatedAt now : Z) :
  let age := getAgeInDays recordCreatedAt now in
  0 <= age
  /\ (age = 0 <-> now = recordCreatedAt)
  /\ getAgeInDays now recordCreatedAt = age
  /\ (age - 1) * 86400000 < Z.abs (now - recordCreatedAt) <= age * 86400000.
Proof.
  cbv zeta. unfold getAgeInDays.
  change (1000 * 60 * 60 * 24) with 86400000.
  pose proof (Z.abs_nonneg (now - recordCreatedAt)) as Habs.
  pose proof (Z.div_mod (Z.abs (now - recordCreatedAt) + 86400000 - 1) 86400000
                ltac:(lia)) as Hdiv.
  pose proof (Z.mod_pos_bound (Z.abs (now - recordCreatedAt) + 86400000 - 1)
                86400000 ltac:(lia)) as Hmod.
  replace (Z.abs (recordCreatedAt - now)) with (Z.abs (now - recordCreatedAt))
    by lia.
  set (q := (Z.abs (now - recordCreatedAt) + 86400000 - 1) / 86400000) in *.
  repeat split; lia.
Qed.

(** ** Reading one appointment: doctors and admins *)

(** X21.  Reading an appointment that exists as a doctor or an admin.  An
    admin always gets it with 200.  A doctor actor gets it with 200 when
    the actor's doctor profile is the doctor of the appointment, and 403
    otherwise, also when the actor has no doctor profile. *)
Theorem staff_read_access (s : Store) (u : User) (k : string) (a : Appointment) :
  findAppointmentByPk s k = Some a ->
  (user_role u = admin -> getAppointment s u k = (ok 200 "", Some a))
  /\ (user_role u = doctor ->
      (forall d, findDoctorByUser s (user_id u) = Some d ->
                 doctor_id d = doctorId a ->
                 getAppointment s u k = (ok 200 "", Some a))
      /\ (forall d, findDoctorByUser s (user_id u) = Some d ->
                    doctor_id d <> doctorId a ->
                    getAppointment s u k = (err 403 "Access denied", None))
      /\ (findDoctorByUser s (user_id u) = None ->
          getAppointment s u k = (err 403 "Access denied", None))).
Proof.
  intros Hfind. unfold getAppointment, patientDenied, doctorDenied.
  rewrite Hfind. split.
  - intros ->. reflexivity.
  - intros ->. cbn [Role_eqb andb]. split; [|split].
    + intros d -> Hid. apply String.eqb_eq in Hid. now rewrite Hid.
    + intros d -> Hid. apply String.eqb_neq in Hid. now rewrite Hid.
    + intros ->. reflexivity.
Qed.

Lemma staff_read_access_witness :
  let a := UtcRuntime.appointmentRow UtcRuntime.row1
             (UtcRuntime.instant "2030-01-07T10:00:00.000Z") 30 scheduled in
  let s := UtcRuntime.clinic None [a] in
  getAppointment s (mkUser UtcRuntime.userD doctor) UtcRuntime.row1
  = (ok 200 "", Some a)
  /\ getAppointment s (mkUser UtcRuntime.userA doctor) UtcRuntime.row1
     = (err 403 "Access denied", None).
Proof.
  intros a s. split.
  - apply (proj1 (proj2 (staff_read_access s (mkUser UtcRuntime.userD doctor)
                           UtcRuntime.row1 a eq_refl) eq_refl)
             (mkDoctor UtcRuntime.doctorD UtcRuntime.userD None (Some 30)));
      reflexivity.
  - apply (proj2 (proj2 (proj2 (staff_read_access s
                                  (mkUser UtcRuntime.userA doctor)
                                  UtcRuntime.row1 a eq_refl) eq_refl))).
    reflexivity.
Defined.
